(** * bun-plugin-strip: a shallow embedding of the transformer and its plugin

    The repository holds two variants of the same plugin:
    - [src/src/index.ts]      (module [Index] below), and
    - [src/unnamed/part_000]  (module [Part000] below).

    [makeTransformer] and [stripFunctions] are textually identical in both
    files and are embedded once, in section [Rewriter], parametrised by the
    variant's [StripConfig] type and its [shouldStrip].

    The TypeScript compiler API, minimatch, the file system and Bun itself are
    external to the repository.  They enter as the fields of the class
    [Host]; every general theorem holds for every host.  Module [Glob] is an
    executable model of minimatch on a documented fragment of its pattern
    language, and module [Demo] a small concrete host, used where a statement
    has to be evaluated on the patterns written in the source. *)

From Stdlib Require Import Bool List String Ascii Arith NArith Lia.
Import ListNotations.
Local Open Scope string_scope.
Local Open Scope list_scope.
Set Warnings "-register-all".

(* ================================================================== *)
(** * JavaScript values used by the plugin *)

(** The outcome of a call that may throw. *)
Inductive Result (A : Type) : Type :=
| Ok (value : A)
| Throw (err : string).
Arguments Ok {A} value.
Arguments Throw {A} err.

(** [try { body } catch (err) { handler }] *)
Definition tryCatch {A} (body : Result A) (handler : string -> Result A) : Result A :=
  match body with
  | Ok v => Ok v
  | Throw err => handler err
  end.

Definition bindR {A B} (r : Result A) (k : A -> Result B) : Result B :=
  match r with
  | Ok v => k v
  | Throw err => Throw err
  end.

(** Values of type [any], as far as the plugin looks into them. *)
Inductive Json : Type :=
| JUndefined
| JNull
| JBool (b : bool)
| JNumber (n : N)
| JString (s : string)
| JArray (items : list Json)
| JObject (fields : list (string * Json)).

Fixpoint lookupField (key : string) (fields : list (string * Json)) : Json :=
  match fields with
  | [] => JUndefined
  | (k, v) :: rest => if String.eqb k key then v else lookupField key rest
  end.

(** [value.key]: a TypeError on [undefined] and [null], the field's value on
    an object, [undefined] on every other value (no own property of that
    name). *)
Definition getProp (value : Json) (key : string) : Result Json :=
  match value with
  | JUndefined => Throw "TypeError"
  | JNull => Throw "TypeError"
  | JObject fields => Ok (lookupField key fields)
  | _ => Ok JUndefined
  end.

(** [a ?? b] on an optional field: [None] is [undefined]. *)
Definition nullish {A} (a : option A) (b : A) : A :=
  match a with
  | Some v => v
  | None => b
  end.

(** [ts.ScriptTarget]: ES3 = 0, ES5 = 1, ES2015 = 2, ... *)
Definition ScriptTarget := N.
Definition ES3 : ScriptTarget := 0%N.
Definition ES5 : ScriptTarget := 1%N.
Definition ES2015 : ScriptTarget := 2%N.

(** [ts.JsxEmit.Preserve] *)
Definition JsxPreserve : N := 1%N.

(** [ts.CompilerOptions], the two options that occur. *)
Record CompilerOptions := {
  target : option ScriptTarget;
  jsx : option N
}.

(** [options.target || ts.ScriptTarget.ES2015]: [undefined] and [0] are
    falsy. *)
Definition targetOrES2015 (options : CompilerOptions) : ScriptTarget :=
  match target options with
  | None => ES2015
  | Some t => if N.eqb t 0 then ES2015 else t
  end.

(* ================================================================== *)
(** * The syntax tree *)

(** [ts.Node] as a closed variant.  The kinds the transformer inspects and
    those of the examples have a constructor of their own; [OtherNode] stands
    for every other kind of the compiler, with its children in source
    order. *)
Inductive Node : Type :=
| Identifier (text : string)
| PrivateIdentifier (text : string)
| NumericLiteral (text : string)
| StringLiteral (text : string)
| PropertyAccessExpression (expression : Node) (name : Node)
| ElementAccessExpression (expression : Node) (argumentExpression : Node)
| CallExpression (expression : Node) (arguments : list Node)
| VoidExpression (expression : Node)
| DebuggerStatement
| EmptyStatement
| ExpressionStatement (expression : Node)
| ReturnStatement (expression : option Node)
| IfStatement (expression : Node) (thenStatement : Node) (elseStatement : option Node)
| Block (statements : list Node)
| SourceFile (fileName : string) (statements : list Node)
| OtherNode (kind : N) (text : string) (children : list Node).

Definition isCallExpression (n : Node) : bool :=
  match n with CallExpression _ _ => true | _ => false end.

Definition isPropertyAccessExpression (n : Node) : bool :=
  match n with PropertyAccessExpression _ _ => true | _ => false end.

Definition isIdentifier (n : Node) : bool :=
  match n with Identifier _ => true | _ => false end.

Definition isDebuggerStatement (n : Node) : bool :=
  match n with DebuggerStatement => true | _ => false end.

(** [node.text] of an identifier. *)
Definition textOf (n : Node) : string :=
  match n with
  | Identifier t | PrivateIdentifier t | NumericLiteral t | StringLiteral t => t
  | _ => ""
  end.

(** [source.fileName] *)
Definition fileNameOf (source : Node) : string :=
  match source with
  | SourceFile f _ => f
  | _ => ""
  end.

(** [ctx.factory.createVoidZero()] is [void 0]. *)
Definition createVoidZero : Node := VoidExpression (NumericLiteral "0").

(** [ctx.factory.createEmptyStatement()] *)
Definition createEmptyStatement : Node := EmptyStatement.

(** `${baseName}.${methodName}` *)
Definition fullNameOf (baseName methodName : string) : string :=
  baseName ++ "." ++ methodName.

(* ================================================================== *)
(** * State: the module variable [verbose], the console, and a record of
      the collaborator calls *)

(** One argument of [console.log]. *)
Inductive LogArg : Type :=
| LogString (s : string)
| LogStrings (l : list string)
| LogRegExp (test : string -> bool).

Record World := {
  verbose : bool;                          (* let verbose: boolean *)
  console : list (list LogArg);            (* lines written by console.log *)
  reads : list string;                     (* paths given to Bun.file(path).text() *)
  parsed : list (string * string)          (* (fileName, source) given to ts.createSourceFile *)
}.

Definition State (S A : Type) : Type := S -> A * S.

Definition ret {S A} (a : A) : State S A := fun s => (a, s).

Definition bind {S A B} (m : State S A) (k : A -> State S B) : State S B :=
  fun s => let (a, s') := m s in k a s'.

Declare Scope state_scope.
Delimit Scope state_scope with state.
Notation "x <- m ;; k" := (bind m (fun x => k))
  (at level 61, m at next level, right associativity) : state_scope.
Notation "m ;;; k" := (bind m (fun _ => k))
  (at level 61, right associativity) : state_scope.
Local Open Scope state_scope.

(** Run a computation on the world inside a larger state. *)
Definition inWorld {L A} (m : State World A) : State (L * World) A :=
  fun s => let (a, w) := m (snd s) in (a, (fst s, w)).

(** [const debug = (msg, ...args) => { if (verbose) console.log.apply(console,
    [`bun-plugin-strip: ${msg}`, ...args]) }] *)
Definition debug (msg : string) (args : list LogArg) : State World unit :=
  fun w =>
    if verbose w then
      (tt, {| verbose := verbose w;
              console := console w ++ [LogString ("bun-plugin-strip: " ++ msg) :: args];
              reads := reads w;
              parsed := parsed w |})
    else (tt, w).

Definition setVerbose (b : bool) : State World unit :=
  fun w => (tt, {| verbose := b; console := console w; reads := reads w; parsed := parsed w |}).

Definition getVerbose : State World bool :=
  fun w => (verbose w, w).

(* ================================================================== *)
(** * External collaborators *)

(** A [RegExp] is represented by its [test] method. *)
Definition RegExp := string -> bool.

Record ParsedConfig := {
  config : Json;
  error : option string
}.

Record ConvertedOptions := {
  options : CompilerOptions;
  errors : list string
}.

Class Host := {
  (** [minimatch(p, pattern)] *)
  minimatch : string -> string -> bool;
  (** [minimatch.makeRe(pattern)]: a regular expression, or [false]
      ([None]) *)
  makeRe : string -> option RegExp;
  (** [ts.createSourceFile(fileName, source, target, false)] *)
  createSourceFile : string -> string -> ScriptTarget -> Node;
  (** [ts.createPrinter({newLine: LineFeed}).printNode(Unspecified, node,
      sourceFile)] *)
  printNode : Node -> Node -> string;
  (** [basename(path)] *)
  basename : string -> string;
  (** the text [Bun.file(path).text()] resolves to *)
  fileText : string -> string;
  (** [readFileSync(path).toString()] *)
  readFileSync : string -> Result string;
  (** [ts.parseConfigFileTextToJson(fileName, text)] *)
  parseConfigFileTextToJson : string -> string -> Result ParsedConfig;
  (** [ts.convertCompilerOptionsFromJson(json, basePath)] *)
  convertCompilerOptionsFromJson : Json -> string -> Result ConvertedOptions;
  (** [resolve(process.cwd(), rel)] *)
  resolveFromCwd : string -> string
}.

(** [ts.getDefaultCompilerOptions()] of the language service. *)
Definition getDefaultCompilerOptions : CompilerOptions :=
  {| target := Some ES5; jsx := Some JsxPreserve |}.

(** [Bun.file(path).text()] *)
Definition readText `{Host} (path : string) : State World string :=
  fun w => (fileText path,
            {| verbose := verbose w; console := console w;
               reads := reads w ++ [path]; parsed := parsed w |}).

(** [ts.createSourceFile], recording the call. *)
Definition parseSource `{Host} (fileName source : string) (t : ScriptTarget)
  : State World Node :=
  fun w => (createSourceFile fileName source t,
            {| verbose := verbose w; console := console w;
               reads := reads w; parsed := parsed w ++ [(fileName, source)] |}).

(* ================================================================== *)
(** * The tree rewriter ([makeTransformer], [stripFunctions]) *)

(** [ts.visitNodes(nodes, visitor)] *)
Definition visitNodes {S} (visitor : Node -> State S Node)
  : list Node -> State S (list Node) :=
  fix go (nodes : list Node) : State S (list Node) :=
    match nodes with
    | [] => ret []
    | n :: rest =>
        n' <- visitor n ;;
        rest' <- go rest ;;
        ret (n' :: rest')
    end.

(** [ts.visitNode] on an optional child. *)
Definition visitOptional {S} (visitor : Node -> State S Node) (node : option Node)
  : State S (option Node) :=
  match node with
  | None => ret None
  | Some n => n' <- visitor n ;; ret (Some n')
  end.

Arguments visitNodes : simpl never.
Arguments visitOptional : simpl never.

(** [ts.visitEachChild(node, visitor, ctx)]: the node rebuilt around its
    visited children.  Where the grammar needs it (a [void 0] as the left
    side of an access or of a call) the node factory of the compiler wraps a
    replaced child in a parenthesized expression; the tree here is the one
    without these parentheses. *)
Definition visitEachChild {S} (node : Node) (visitor : Node -> State S Node)
  : State S Node :=
  match node with
  | Identifier _ | PrivateIdentifier _ | NumericLiteral _ | StringLiteral _
  | DebuggerStatement | EmptyStatement => ret node
  | PropertyAccessExpression e n =>
      e' <- visitor e ;; n' <- visitor n ;; ret (PropertyAccessExpression e' n')
  | ElementAccessExpression e a =>
      e' <- visitor e ;; a' <- visitor a ;; ret (ElementAccessExpression e' a')
  | CallExpression e args =>
      e' <- visitor e ;; args' <- visitNodes visitor args ;; ret (CallExpression e' args')
  | VoidExpression e => e' <- visitor e ;; ret (VoidExpression e')
  | ExpressionStatement e => e' <- visitor e ;; ret (ExpressionStatement e')
  | ReturnStatement e => e' <- visitOptional visitor e ;; ret (ReturnStatement e')
  | IfStatement c t e =>
      c' <- visitor c ;; t' <- visitor t ;; e' <- visitOptional visitor e ;;
      ret (IfStatement c' t' e')
  | Block ss => ss' <- visitNodes visitor ss ;; ret (Block ss')
  | SourceFile f ss => ss' <- visitNodes visitor ss ;; ret (SourceFile f ss')
  | OtherNode k t cs => cs' <- visitNodes visitor cs ;; ret (OtherNode k t cs')
  end.

Section Rewriter.
Context `{Host}.
Context {StripConfig : Type}.
Variable stripDebugger : StripConfig -> bool.
Variable compilerOptions : StripConfig -> CompilerOptions.
(** the variant's [shouldStrip(config, expr)] *)
Variable shouldStrip : StripConfig -> Node -> bool.

(** The state of one run of the transformer: the closure variable
    [needed_to_strip], and the world. *)
Definition WalkState : Type := bool * World.

Definition noteStripping (fileName : string) : State WalkState unit :=
  fun s =>
    if negb (fst s) then
      let (_, w) := debug "stripping file" [LogString fileName] (snd s) in
      (tt, (true, w))
    else (tt, s).

(** [const walk = (node: ts.Node): ts.Node => ...] inside
    [makeTransformer], for the source file named [fileName]. *)
Fixpoint walk (config : StripConfig) (fileName : string) (node : Node)
  {struct node} : State WalkState Node :=
  match node with
  | CallExpression expr _ =>
      if isPropertyAccessExpression expr && shouldStrip config expr then
        noteStripping fileName ;;;
        ret createVoidZero
      else visitEachChild node (walk config fileName)
  | DebuggerStatement =>
      if stripDebugger config then
        inWorld (debug "stripping debugger" [LogString fileName]) ;;;
        ret createEmptyStatement
      else visitEachChild node (walk config fileName)
  | _ => visitEachChild node (walk config fileName)
  end.

(** The transformer [makeTransformer(config)(ctx)], applied to [source]:
    [ts.visitNode(source, walk)] with a fresh [needed_to_strip]. *)
Definition makeTransformer (config : StripConfig) (source : Node)
  : State World Node :=
  fun w =>
    let (node, s) := walk config (fileNameOf source) source (false, w) in
    (node, snd s).

Definition stripFunctions (config : StripConfig) (path source : string)
  : State World string :=
  sourceFile <- parseSource (basename path) source
                  (targetOrES2015 (compilerOptions config)) ;;
  transformed <- makeTransformer config sourceFile ;;
  ret (printNode transformed sourceFile).

End Rewriter.

(** ** The rewriter of the specification *)

Section Rewrite.
Context {StripConfig : Type}.
Variable stripDebugger : StripConfig -> bool.
Variable shouldStrip : StripConfig -> Node -> bool.

(** The tree rewriter as the specification describes it (section 4.4): a
    pure function from trees to trees, without the logging of [walk].
    [walk_rewrite] shows that [walk] computes it. *)
Fixpoint rewrite (config : StripConfig) (node : Node) {struct node} : Node :=
  match node with
  | CallExpression expr args =>
      if isPropertyAccessExpression expr && shouldStrip config expr then createVoidZero
      else CallExpression (rewrite config expr) (map (rewrite config) args)
  | DebuggerStatement =>
      if stripDebugger config then createEmptyStatement else DebuggerStatement
  | Identifier _ | PrivateIdentifier _ | NumericLiteral _ | StringLiteral _
  | EmptyStatement => node
  | PropertyAccessExpression e n =>
      PropertyAccessExpression (rewrite config e) (rewrite config n)
  | ElementAccessExpression e a =>
      ElementAccessExpression (rewrite config e) (rewrite config a)
  | VoidExpression e => VoidExpression (rewrite config e)
  | ExpressionStatement e => ExpressionStatement (rewrite config e)
  | ReturnStatement e => ReturnStatement (option_map (rewrite config) e)
  | IfStatement c t e =>
      IfStatement (rewrite config c) (rewrite config t) (option_map (rewrite config) e)
  | Block ss => Block (map (rewrite config) ss)
  | SourceFile f ss => SourceFile f (map (rewrite config) ss)
  | OtherNode k t cs => OtherNode k t (map (rewrite config) cs)
  end.

(** The decision [walk] takes at a node: replace it, or visit its
    children. *)
Definition replaced (config : StripConfig) (node : Node) : bool :=
  match node with
  | CallExpression expr _ => isPropertyAccessExpression expr && shouldStrip config expr
  | DebuggerStatement => stripDebugger config
  | _ => false
  end.

(** The node is a call that [walk] replaces. *)
Definition strippedCall (config : StripConfig) (node : Node) : bool :=
  match node with
  | CallExpression expr _ => isPropertyAccessExpression expr && shouldStrip config expr
  | _ => false
  end.

End Rewrite.

(* ================================================================== *)
(** * The plugin as Bun sees it *)

(** What an [onLoad] callback resolves to: [{ contents }] or [undefined]. *)
Inductive OnLoadResult : Type :=
| Contents (contents : string)
| Undefined.

(** One [build.onLoad({ filter }, callback)] registration. *)
Record OnLoad := {
  filter : RegExp;
  callback : string -> State World OnLoadResult
}.

(** A [BunPlugin]: its name, and the registrations its [setup] makes. *)
Record BunPlugin := {
  name : string;
  setup : list OnLoad
}.

(** Bun offers a path to the registrations in order: a callback runs when its
    filter matches the path, and [undefined] passes the file on. *)
Fixpoint runOnLoad (registrations : list OnLoad) (path : string)
  : State World OnLoadResult :=
  match registrations with
  | [] => ret Undefined
  | r :: rest =>
      if filter r path then
        res <- callback r path ;;
        match res with
        | Undefined => runOnLoad rest path
        | Contents c => ret (Contents c)
        end
      else runOnLoad rest path
  end.

(** [export type FilterPattern = ReadonlyArray<string> | string | null] *)
Inductive FilterPattern : Type :=
| FNull
| FString (s : string)
| FArray (l : list string).

(** [a ?? b] where [a] is an optional field of type [FilterPattern]:
    [undefined] and [null] both give [b]. *)
Definition nullishPattern (a : option FilterPattern) (b : FilterPattern) : FilterPattern :=
  match a with
  | None | Some FNull => b
  | Some p => p
  end.

(** [needle] occurs in [s] *)
Fixpoint includes (needle s : string) : bool :=
  String.prefix needle s ||
  match s with
  | EmptyString => false
  | String _ rest => includes needle rest
  end.

(* ================================================================== *)
(** * Variant [src/src/index.ts] *)

Module Index.

Module Config.
Record t := mk {
  include : option FilterPattern;
  exclude : option FilterPattern;
  debugger : option bool;
  functions : option (list string);
  tsconfigPath : option string;
  verbose : option bool
}.
End Config.

(** [config: Config = {}] *)
Definition emptyConfig : Config.t := Config.mk None None None None None None.

Module StripConfig.
Record t := mk {
  functions : list string;
  stripDebugger : bool;
  compilerOptions : CompilerOptions
}.
End StripConfig.

Section WithHost.
Context `{Host}.

(** [[pattern ?? def].flat()] *)
Definition flat (pattern : FilterPattern) (def : string) : list string :=
  match pattern with
  | FNull => [def]
  | FString s => [s]
  | FArray l => l
  end.

(** The regular expression ["(" + re.source + ")"].  The source of a
    regular expression made by minimatch is anchored at both ends, so the
    group tests as [re] does.  When [makeRe] gave [false], [re.source] is
    [undefined] and the group is the text [(undefined)]. *)
Definition groupOf (re : option RegExp) : RegExp :=
  match re with
  | Some r => r
  | None => includes "undefined"
  end.

(** [new RegExp(patterns.join("|"))]: the alternation of the groups; with
    no pattern at all the source is empty and matches every string. *)
Definition makeRegex (pattern : FilterPattern) (nullMatchesAll : bool) : RegExp :=
  let def := if nullMatchesAll then "*" else "" in
  let patterns := map (fun x => groupOf (makeRe x)) (flat pattern def) in
  fun s =>
    match patterns with
    | [] => true
    | _ => existsb (fun re => re s) patterns
    end.

Definition makeFileFilter (include exclude : FilterPattern) : RegExp * RegExp :=
  (makeRegex include true, makeRegex exclude false).

Definition shouldStrip (config : StripConfig.t) (expr : Node) : bool :=
  match expr with
  | PropertyAccessExpression obj prop =>
      if negb (isIdentifier obj) || negb (isIdentifier prop) then false
      else
        let baseName := textOf obj in
        let methodName := textOf prop in
        let fullName := fullNameOf baseName methodName in
        (* for (const p of config.functions) { if (...) return true; break; } *)
        (fix loop (ps : list string) : bool :=
           match ps with
           | [] => false
           | p :: _ => if minimatch fullName p then true else (* break *) false
           end) (StripConfig.functions config)
  | _ => false
  end.

(** [walk], [makeTransformer] and [stripFunctions] of this variant. *)
Definition walk : StripConfig.t -> string -> Node -> State WalkState Node :=
  walk StripConfig.stripDebugger shouldStrip.

Definition rewrite : StripConfig.t -> Node -> Node :=
  rewrite StripConfig.stripDebugger shouldStrip.

Definition makeTransformer : StripConfig.t -> Node -> State World Node :=
  makeTransformer StripConfig.stripDebugger shouldStrip.

Definition stripFunctions : StripConfig.t -> string -> string -> State World string :=
  stripFunctions StripConfig.stripDebugger StripConfig.compilerOptions shouldStrip.

Definition getCompilerOptions (sourcePath : string) : Result CompilerOptions :=
  tryCatch
    (bindR (readFileSync sourcePath) (fun content =>
     bindR (parseConfigFileTextToJson "" content) (fun result =>
     bindR (getProp (config result) "compilerOptions") (fun compilerOptions =>
     bindR (convertCompilerOptionsFromJson compilerOptions "") (fun converted =>
     Ok (options converted))))))
    (fun _ => Ok getDefaultCompilerOptions).

(** The first [callback] of [Strip]. *)
Definition loadCallback (exclude : RegExp) (config : StripConfig.t) (path : string)
  : State World OnLoadResult :=
  contents <- readText path ;;
  if exclude path then
    debug "file is excluded:" [LogString path] ;;;
    ret (Contents contents)
  else
    out <- stripFunctions config path contents ;;
    ret (Contents out).

Definition Strip (config : Config.t) : World -> Result BunPlugin * World :=
  fun w =>
    let (include, exclude) :=
      makeFileFilter (nullishPattern (Config.include config) FNull)
                     (nullishPattern (Config.exclude config) (FArray ["*node_modules*"])) in
    let functions := nullish (Config.functions config) ["console.*"; "assert.*"] in
    let stripDebugger := nullish (Config.debugger config) true in
    let tsconfigPath :=
      nullish (Config.tsconfigPath config) (resolveFromCwd "./tsconfig.json") in
    match getCompilerOptions tsconfigPath with
    | Throw err => (Throw err, w)
    | Ok compilerOptions =>
        let nothingToStrip := Nat.eqb (List.length functions) 0 && negb stripDebugger in
        let body : State World BunPlugin :=
          v <- getVerbose ;;
          setVerbose (nullish (Config.verbose config) v) ;;;
          debug "functions:" [LogStrings functions] ;;;
          debug "file include pattern:" [LogRegExp include] ;;;
          debug "file exclude pattern:" [LogRegExp exclude] ;;;
          callback <-
            (if nothingToStrip then
               debug "no functions specified which should be stripped" [] ;;;
               ret (fun _ : string => ret Undefined)
             else
               ret (loadCallback exclude
                      (StripConfig.mk functions stripDebugger compilerOptions))) ;;
          ret {| name := "strip-debug";
                 setup := [ {| filter := include; callback := callback |} ] |} in
        let (plugin, w') := body w in
        (Ok plugin, w')
    end.

(** The include expression, the exclude expression and [nothingToStrip], as
    [Strip] computes them from a configuration. *)
Definition includeOf (config : Config.t) : RegExp :=
  makeRegex (nullishPattern (Config.include config) FNull) true.

Definition excludeOf (config : Config.t) : RegExp :=
  makeRegex
    (nullishPattern (Config.exclude config) (FArray ["*node_modules*"])) false.

Definition nothingToStrip (config : Config.t) : bool :=
  Nat.eqb (List.length (nullish (Config.functions config) ["console.*"; "assert.*"])) 0
  && negb (nullish (Config.debugger config) true).

End WithHost.
End Index.

(* ================================================================== *)
(** * Variant [src/unnamed/part_000] *)

Module Part000.

Module Config.
Record t := mk {
  include : option FilterPattern;
  exclude : option FilterPattern;
  debugger : option bool;
  functions : option FilterPattern;
  tsconfigPath : option string;
  verbose : option bool
}.
End Config.

Definition emptyConfig : Config.t := Config.mk None None None None None None.

Module StripConfig.
Record t := mk {
  functions : FilterPattern;
  stripDebugger : bool;
  compilerOptions : CompilerOptions
}.
End StripConfig.

(** The elements [[...s]] of a string: its characters. *)
Fixpoint characters (s : string) : list string :=
  match s with
  | EmptyString => []
  | String c rest => String c EmptyString :: characters rest
  end.

(** [[...pattern]]; spreading [null] throws. *)
Definition spread (pattern : FilterPattern) : Result (list string) :=
  match pattern with
  | FNull => Throw "TypeError"
  | FString s => Ok (characters s)
  | FArray l => Ok l
  end.

(** [pattern.length]; [null.length] throws. *)
Definition lengthOf (pattern : FilterPattern) : Result nat :=
  match pattern with
  | FNull => Throw "TypeError"
  | FString s => Ok (String.length s)
  | FArray l => Ok (List.length l)
  end.

Section WithHost.
Context `{Host}.

Definition shouldStrip (config : StripConfig.t) (expr : Node) : bool :=
  match StripConfig.functions config with
  | FNull => false
  | functions =>
      match expr with
      | PropertyAccessExpression obj prop =>
          if negb (isIdentifier obj) || negb (isIdentifier prop) then false
          else
            let baseName := textOf obj in
            let methodName := textOf prop in
            let fullName := fullNameOf baseName methodName in
            match spread functions with
            | Throw _ => false (* not reached: [functions] is not null *)
            | Ok patterns =>
                (* for (const p of [...config.functions]) if (...) return true; *)
                (fix loop (ps : list string) : bool :=
                   match ps with
                   | [] => false
                   | p :: rest => if minimatch fullName p then true else loop rest
                   end) patterns
            end
      | _ => false
      end
  end.

(** [walk], [makeTransformer] and [stripFunctions] of this variant. *)
Definition walk : StripConfig.t -> string -> Node -> State WalkState Node :=
  walk StripConfig.stripDebugger shouldStrip.

Definition rewrite : StripConfig.t -> Node -> Node :=
  rewrite StripConfig.stripDebugger shouldStrip.

Definition makeTransformer : StripConfig.t -> Node -> State World Node :=
  makeTransformer StripConfig.stripDebugger shouldStrip.

Definition stripFunctions : StripConfig.t -> string -> string -> State World string :=
  stripFunctions StripConfig.stripDebugger StripConfig.compilerOptions shouldStrip.

Definition getCompilerOptions (sourcePath : string) : Result CompilerOptions :=
  tryCatch
    (bindR (readFileSync sourcePath) (fun content =>
     bindR (parseConfigFileTextToJson "" content) (fun result =>
     bindR (getProp (config result) "compilerOptions") (fun compilerOptions =>
     bindR (convertCompilerOptionsFromJson compilerOptions "") (fun converted =>
     Ok (options converted))))))
    (fun _ => Ok getDefaultCompilerOptions).

Definition loadCallback (exclude : list string) (config : StripConfig.t) (path : string)
  : State World OnLoadResult :=
  contents <- readText path ;;
  if existsb (fun pattern => minimatch path pattern) exclude then
    ret (Contents contents)
  else
    out <- stripFunctions config path contents ;;
    ret (Contents out).

(** [new RegExp(include.map(p => makeRe(p).source).join("|"))]: the
    alternation of the anchored sources.  [join] writes [undefined] (the
    source of [false]) as the empty string, and an empty alternative, like
    the empty source, matches every string. *)
Definition includeFilter (include : list string) : RegExp :=
  fun s =>
    match include with
    | [] => true
    | _ => existsb (fun pattern =>
                      match makeRe pattern with
                      | Some re => re s
                      | None => true
                      end) include
    end.

Definition Strip (config : Config.t) : World -> Result BunPlugin * World :=
  fun w =>
    match spread (nullishPattern (Config.include config) (FArray ["**"])),
          spread (nullishPattern (Config.exclude config) (FArray ["**node_modules**"])) with
    | Throw err, _ | _, Throw err => (Throw err, w)
    | Ok include, Ok exclude =>
        let functions :=
          nullishPattern (Config.functions config) (FArray ["console.*"; "assert.*"]) in
        let stripDebugger := nullish (Config.debugger config) true in
        let tsconfigPath :=
          nullish (Config.tsconfigPath config) (resolveFromCwd "./tsconfig.json") in
        match getCompilerOptions tsconfigPath, lengthOf functions with
        | Throw err, _ | _, Throw err => (Throw err, w)
        | Ok compilerOptions, Ok len =>
            let nothingToStrip := Nat.eqb len 0 && negb stripDebugger in
            let body : State World BunPlugin :=
              v <- getVerbose ;;
              setVerbose (nullish (Config.verbose config) v) ;;;
              debug "functions:"
                    [LogStrings match functions with
                                | FArray l => l
                                | FString s => [s]
                                | FNull => []
                                end] ;;;
              debug "file include patterns:" [LogStrings include] ;;;
              debug "file exclude patterns:" [LogStrings exclude] ;;;
              callback <-
                (if nothingToStrip then
                   debug "no functions specified which should be stripped" [] ;;;
                   ret (fun _ : string => ret Undefined)
                 else
                   ret (loadCallback exclude
                          (StripConfig.mk functions stripDebugger compilerOptions))) ;;
              ret {| name := "strip-debug";
                     setup := [ {| filter := includeFilter include;
                                   callback := callback |} ] |} in
            let (plugin, w') := body w in
            (Ok plugin, w')
        end
    end.

(** The patterns [shouldStrip] iterates over: [[...config.functions]]
    behind the null test. *)
Definition patternsOf (functions : FilterPattern) : list string :=
  match functions with
  | FNull => []
  | FString s => characters s
  | FArray l => l
  end.

(** The include list, the exclude list, the functions and [nothingToStrip],
    as [Strip] computes them from a configuration. *)
Definition includeOf (config : Config.t) : list string :=
  patternsOf (nullishPattern (Config.include config) (FArray ["**"])).

Definition excludeOf (config : Config.t) : list string :=
  patternsOf (nullishPattern (Config.exclude config) (FArray ["**node_modules**"])).

Definition functionsOf (config : Config.t) : FilterPattern :=
  nullishPattern (Config.functions config) (FArray ["console.*"; "assert.*"]).

Definition nothingToStrip (config : Config.t) : bool :=
  match lengthOf (functionsOf config) with
  | Ok len => Nat.eqb len 0 && negb (nullish (Config.debugger config) true)
  | Throw _ => false
  end.

End WithHost.
End Part000.

(* ================================================================== *)
(** * An executable model of minimatch *)

(** minimatch is a dependency of the repository, not part of it.  [Glob]
    models [minimatch(p, pattern)] and [minimatch.makeRe(pattern)] with
    default options, following the library's documentation, on the patterns
    built from literal characters, [*], [?] and [/]:
    - a pattern and a path are cut into portions at (runs of) [/];
    - [*] stands for any run of characters inside one portion and [?] for a
      single one, neither ever for a [/];
    - a portion that is exactly [**] (a globstar) stands for any number of
      portions; elsewhere [**] reads as [*];
    - a portion of the pattern that begins with [*] or [?] does not match a
      portion of the path that begins with a dot, the portions [.] and [..]
      are matched by no wildcard, and a globstar does not pass over a
      portion that begins with a dot;
    - the empty pattern matches the empty path only, and a pattern that
      begins with [#] is a comment and matches nothing.
    Brace expansion, character classes, extglobs, escapes and negation are
    outside the model ([supported] tells them apart). *)
Module Glob.

Definition star : ascii := "*"%char.
Definition qmark : ascii := "?"%char.
Definition slash : ascii := "/"%char.
Definition dot : ascii := "."%char.

(** Wildcard matching inside one portion. *)
Fixpoint wild (p : list ascii) : list ascii -> bool :=
  match p with
  | [] => fun s => match s with [] => true | _ => false end
  | c :: p' =>
      if Ascii.eqb c star then
        fix skip (s : list ascii) : bool :=
          wild p' s || match s with [] => false | _ :: s' => skip s' end
      else if Ascii.eqb c qmark then
        fun s => match s with [] => false | _ :: s' => wild p' s' end
      else
        fun s => match s with [] => false | d :: s' => Ascii.eqb c d && wild p' s' end
  end.

Definition isMagic (c : ascii) : bool := Ascii.eqb c star || Ascii.eqb c qmark.

Definition hasMagic (p : string) : bool := existsb isMagic (list_ascii_of_string p).

Definition startsWithMagic (p : string) : bool :=
  match p with
  | String c _ => isMagic c
  | EmptyString => false
  end.

Definition startsWithDot (f : string) : bool :=
  match f with
  | String c _ => Ascii.eqb c dot
  | EmptyString => false
  end.

Definition allStars (p : string) : bool :=
  forallb (fun c => Ascii.eqb c star) (list_ascii_of_string p).

Definition isEmpty (s : string) : bool :=
  match s with EmptyString => true | _ => false end.

(** One portion of a pattern against one portion of a path. *)
Definition portionTest (p f : string) : bool :=
  if hasMagic p then
    negb (String.eqb f "." || String.eqb f "..")
    && (if startsWithMagic p then negb (startsWithDot f) else true)
    && (if allStars p then negb (isEmpty f) else true)
    && wild (list_ascii_of_string p) (list_ascii_of_string f)
  else String.eqb p f.

(** [s.split(/\/+/)] *)
Fixpoint splitFrom (cs : list ascii) (cur : string) (afterSlash : bool) : list string :=
  match cs with
  | [] => [cur]
  | c :: rest =>
      if Ascii.eqb c slash then
        if afterSlash then splitFrom rest "" true
        else cur :: splitFrom rest "" true
      else splitFrom rest (cur ++ String c "") false
  end.

Definition slashSplit (s : string) : list string :=
  splitFrom (list_ascii_of_string s) "" false.

(** [s.split("/")] *)
Fixpoint splitEach (cs : list ascii) (cur : string) : list string :=
  match cs with
  | [] => [cur]
  | c :: rest =>
      if Ascii.eqb c slash then cur :: splitEach rest ""
      else splitEach rest (cur ++ String c "")
  end.

Inductive Portion : Type :=
| Globstar
| Part (p : string).

Definition parse (pattern : string) : list Portion :=
  map (fun p => if String.eqb p "**" then Globstar else Part p) (slashSplit pattern).

(** [matchOne(file, pattern)] without [partial]. *)
Fixpoint matchOne (pattern : list Portion) : list string -> bool :=
  match pattern with
  | [] =>
      (* the pattern ran out: only a trailing slash may be left of the path *)
      fun file => match file with [] => true | [f] => isEmpty f | _ => false end
  | Globstar :: rest =>
      match rest with
      | [] =>
          (* a globstar at the end swallows the rest, but no dot portion *)
          fun file =>
            match file with
            | [] => false
            | _ => forallb (fun f => negb (startsWithDot f)) file
            end
      | _ =>
          fix swallow (file : list string) : bool :=
            match file with
            | [] => false
            | f :: file' =>
                matchOne rest file || (negb (startsWithDot f) && swallow file')
            end
      end
  | Part p :: rest =>
      fun file =>
        match file with
        | [] => false
        | f :: file' => portionTest p f && matchOne rest file'
        end
  end.

Definition isComment (pattern : string) : bool :=
  match pattern with
  | String c _ => Ascii.eqb c "#"%char
  | EmptyString => false
  end.

Definition minimatch (p pattern : string) : bool :=
  if isComment pattern then false
  else if isEmpty pattern then isEmpty p
  else matchOne (parse pattern) (slashSplit p).

Definition hasGlobstar (pattern : list Portion) : bool :=
  existsb (fun q => match q with Globstar => true | Part _ => false end) pattern.

(** One portion of the pattern for each portion of the path. *)
Fixpoint matchEach (pattern : list Portion) (file : list string) : bool :=
  match pattern, file with
  | [], [] => true
  | Part p :: pattern', f :: file' => portionTest p f && matchEach pattern' file'
  | _, _ => false
  end.

Definition loneGlobstar (pattern : list Portion) : bool :=
  match pattern with
  | [Globstar] => true
  | _ => false
  end.

(** The patterns whose regular expression is modelled exactly. *)
Definition exactRe (pattern : string) : bool :=
  loneGlobstar (parse pattern) || negb (hasGlobstar (parse pattern)).

(** The regular expression of a pattern is anchored at both ends and is
    built portion by portion, with [\/] between the portions: [*] becomes
    [[^/]*?] and [?] becomes [[^/]], so the expression of a pattern without
    globstar matches a string cut at every [/] portion for portion, and the
    lone globstar becomes an expression for every string in which no dot
    follows the start or a slash.  For a globstar next to other portions the
    library's expression is looser than [matchOne]; the model answers as
    [matchOne] does there, and is exact on the patterns [exactRe] accepts. *)
Definition reTest (pattern : list Portion) : RegExp :=
  fun s =>
    if loneGlobstar pattern then
      forallb (fun f => negb (startsWithDot f)) (splitEach (list_ascii_of_string s) "")
    else if hasGlobstar pattern then
      matchOne pattern (splitEach (list_ascii_of_string s) "")
    else matchEach pattern (splitEach (list_ascii_of_string s) "").

(** [minimatch.makeRe(pattern)]: [false] for the empty pattern and for a
    comment. *)
Definition makeRe (pattern : string) : option RegExp :=
  if isComment pattern || isEmpty pattern then None
  else Some (reTest (parse pattern)).

(** No brace, bracket, parenthesis or backslash, and no leading [!]. *)
Definition supported (pattern : string) : bool :=
  forallb (fun c => negb (existsb (Ascii.eqb c)
                            ["{"; "}"; "["; "]"; "("; ")"; "\"]%char))
          (list_ascii_of_string pattern)
  && negb (String.prefix "!" pattern).

End Glob.

(* ================================================================== *)
(** * A concrete host *)

(** [Demo.host] puts [Glob] in the place of minimatch and a small printer, a
    table of programs and a small disk in the place of the compiler and
    the file system.  It serves to evaluate the plugin on concrete input. *)
Module Demo.
Local Open Scope string_scope.

(** A printer for the node kinds of [Node]; string literals are written
    with single quotes. *)
Fixpoint print (n : Node) : string :=
  let printList :=
    fix printList (sep : string) (l : list Node) : string :=
      match l with
      | [] => ""
      | x :: rest =>
          match rest with
          | [] => print x
          | _ => print x ++ sep ++ printList sep rest
          end
      end in
  match n with
  | Identifier t | PrivateIdentifier t | NumericLiteral t => t
  | StringLiteral t => "'" ++ t ++ "'"
  | PropertyAccessExpression e m => print e ++ "." ++ print m
  | ElementAccessExpression e a => print e ++ "[" ++ print a ++ "]"
  | CallExpression e args => print e ++ "(" ++ printList ", " args ++ ")"
  | VoidExpression e => "void " ++ print e
  | DebuggerStatement => "debugger;"
  | EmptyStatement => ";"
  | ExpressionStatement e => print e ++ ";"
  | ReturnStatement None => "return;"
  | ReturnStatement (Some e) => "return " ++ print e ++ ";"
  | IfStatement c t None => "if (" ++ print c ++ ") " ++ print t
  | IfStatement c t (Some e) => "if (" ++ print c ++ ") " ++ print t ++ " else " ++ print e
  | Block ss => "{ " ++ printList " " ss ++ " }"
  | SourceFile _ ss => printList " " ss
  | OtherNode _ t cs => t ++ "(" ++ printList ", " cs ++ ")"
  end.

Definition call (obj method : string) (args : list Node) : Node :=
  CallExpression (PropertyAccessExpression (Identifier obj) (Identifier method)) args.

(** [if (x) { console.log('hi'); debugger; return x; }] *)
Definition ifProgram : list Node :=
  [IfStatement (Identifier "x")
     (Block [ExpressionStatement (call "console" "log" [StringLiteral "hi"]);
             DebuggerStatement;
             ReturnStatement (Some (Identifier "x"))])
     None].

(** [if (x) { void 0; ; return x; }] *)
Definition ifStripped : list Node :=
  [IfStatement (Identifier "x")
     (Block [ExpressionStatement createVoidZero;
             EmptyStatement;
             ReturnStatement (Some (Identifier "x"))])
     None].

(** [a.b.c(); obj[k](); fn(1);] *)
Definition plainProgram : list Node :=
  [ExpressionStatement
     (CallExpression
        (PropertyAccessExpression
           (PropertyAccessExpression (Identifier "a") (Identifier "b")) (Identifier "c")) []);
   ExpressionStatement
     (CallExpression (ElementAccessExpression (Identifier "obj") (Identifier "k")) []);
   ExpressionStatement (CallExpression (Identifier "fn") [NumericLiteral "1"])].

(** [assert.ok(x);] *)
Definition assertProgram : list Node :=
  [ExpressionStatement (call "assert" "ok" [Identifier "x"])].

(** [console.log(1);] *)
Definition consoleProgram : list Node :=
  [ExpressionStatement (call "console" "log" [NumericLiteral "1"])].

(** [void 0;] *)
Definition voidProgram : list Node :=
  [ExpressionStatement createVoidZero].

Definition programs : list (list Node) :=
  [ifProgram; ifStripped; plainProgram; assertProgram; consoleProgram; voidProgram].

Definition textOfProgram (statements : list Node) : string :=
  print (SourceFile "" statements).

(** The parser knows the programs of the table by their text; every other
    text parses as the empty file. *)
Definition parse (fileName source : string) (target : ScriptTarget) : Node :=
  SourceFile fileName
    (match find (fun p => String.eqb (textOfProgram p) source) programs with
     | Some statements => statements
     | None => []
     end).

Definition lastOf (l : list string) : string := last l "".

Definition emptyOptions : CompilerOptions := {| target := None; jsx := None |}.

(** The option converter gives the empty options for a missing
    [compilerOptions], and reads [target] from an object. *)
Definition convert (json : Json) (basePath : string) : Result ConvertedOptions :=
  match json with
  | JObject fields =>
      Ok {| options :=
              {| target :=
                   match lookupField "target" fields with
                   | JString "es3" => Some ES3
                   | JString "es5" => Some ES5
                   | JString "es2015" => Some ES2015
                   | _ => None
                   end;
                 jsx := None |};
            errors := [] |}
  | _ => Ok {| options := emptyOptions; errors := [] |}
  end.

#[export] Instance host : Host := {|
  minimatch := Glob.minimatch;
  makeRe := Glob.makeRe;
  createSourceFile := parse;
  printNode := fun node _ => print node;
  basename := fun path => lastOf (Glob.splitEach (list_ascii_of_string path) "");
  fileText := fun path =>
    if String.eqb path "src/x.ts" then textOfProgram ifProgram
    else if String.eqb path "src/node_modules/x.ts" then textOfProgram consoleProgram
    else if String.eqb path "src/assert.ts" then textOfProgram assertProgram
    else if String.eqb path "src/plain.ts" then textOfProgram plainProgram
    else "";
  readFileSync := fun path =>
    if String.eqb path "/project/tsconfig.json" then Ok "{}"
    else if String.eqb path "/project/broken.json" then Ok "{ compilerOptions"
    else Throw "ENOENT";
  parseConfigFileTextToJson := fun _ text =>
    if String.eqb text "{}" then Ok {| config := JObject []; error := None |}
    else Ok {| config := JObject []; error := Some "syntax error" |};
  convertCompilerOptionsFromJson := convert;
  resolveFromCwd := fun rel =>
    "/project/" ++ (if String.prefix "./" rel then String.substring 2 (String.length rel - 2) rel else rel)
|}.

Definition world0 : World :=
  {| verbose := false; console := []; reads := []; parsed := [] |}.

End Demo.

(** A second concrete host, as [Demo.host] but for the printer and the
    parser.  [stripFunctions] hands the printer the source file of the run at
    hand besides the tree to print; this printer consults it, and ends its
    text with a comment when the tree it prints is not the tree of that
    source file.  The parser reads such a comment as the comment it is. *)
Module Marking.
Local Open Scope string_scope.

Definition marker : string := " /* transformed */".

Definition print (node sourceFile : Node) : string :=
  if String.eqb (Demo.print node) (Demo.print sourceFile) then Demo.print node
  else Demo.print node ++ marker.

(** The text without the marker at its end. *)
Fixpoint unmarked (source : string) : string :=
  if String.eqb source marker then ""
  else match source with
       | EmptyString => ""
       | String c rest => String c (unmarked rest)
       end.

Definition parse (fileName source : string) (target : ScriptTarget) : Node :=
  Demo.parse fileName (unmarked source) target.

#[export] Instance host : Host := {|
  minimatch := Glob.minimatch;
  makeRe := Glob.makeRe;
  createSourceFile := parse;
  printNode := print;
  basename := @basename Demo.host;
  fileText := @fileText Demo.host;
  readFileSync := @readFileSync Demo.host;
  parseConfigFileTextToJson := @parseConfigFileTextToJson Demo.host;
  convertCompilerOptionsFromJson := Demo.convert;
  resolveFromCwd := @resolveFromCwd Demo.host
|}.

End Marking.

(* ================================================================== *)
(** * Predicates on trees *)


(** [p] holds of [node] and of every node below it. *)
Fixpoint allNodes (p : Node -> bool) (node : Node) {struct node} : bool :=
  p node &&
  match node with
  | Identifier _ | PrivateIdentifier _ | NumericLiteral _ | StringLiteral _
  | DebuggerStatement | EmptyStatement => true
  | PropertyAccessExpression e n => allNodes p e && allNodes p n
  | ElementAccessExpression e a => allNodes p e && allNodes p a
  | CallExpression e args => allNodes p e && forallb (allNodes p) args
  | VoidExpression e => allNodes p e
  | ExpressionStatement e => allNodes p e
  | ReturnStatement e =>
      match e with Some n => allNodes p n | None => true end
  | IfStatement c t e =>
      allNodes p c && allNodes p t && match e with Some n => allNodes p n | None => true end
  | Block ss => forallb (allNodes p) ss
  | SourceFile _ ss => forallb (allNodes p) ss
  | OtherNode _ _ cs => forallb (allNodes p) cs
  end.

(** The exact shape [identifier.identifier]. *)
Definition isTwoSegment (expr : Node) : bool :=
  match expr with
  | PropertyAccessExpression (Identifier _) (Identifier _) => true
  | _ => false
  end.

(** [candidate] matches at least one pattern of the list. *)
Definition matchesAny `{Host} (candidate : string) (patterns : list string) : bool :=
  existsb (fun p => minimatch candidate p) patterns.

(** [node] is a call whose two-segment dotted callee matches one of the
    patterns. *)
Definition isMatchingCall `{Host} (patterns : list string) (node : Node) : bool :=
  match node with
  | CallExpression (PropertyAccessExpression (Identifier baseName) (Identifier methodName)) _ =>
      matchesAny (fullNameOf baseName methodName) patterns
  | _ => false
  end.

(** The tree holds no call whose two-segment dotted callee matches. *)
Definition noMatchingCall `{Host} (patterns : list string) (tree : Node) : bool :=
  allNodes (fun n => negb (isMatchingCall patterns n)) tree.

(** The tree holds no debugger statement. *)
Definition noDebugger (tree : Node) : bool :=
  allNodes (fun n => negb (isDebuggerStatement n)) tree.

(** The world with [verbose] set to [b]. *)
Definition withVerbose (b : bool) (w : World) : World := snd (setVerbose b w).

(** What a run may change when it only logs: the console grows, and only
    when [verbose] is set. *)
Definition onlyLogs (w w' : World) : Prop :=
  verbose w' = verbose w /\ reads w' = reads w /\ parsed w' = parsed w /\
  (exists lines, console w' = console w ++ lines /\ (verbose w = false -> lines = [])).

(** A visitor that computes the pure function [g] and only logs. *)
Definition computes {L} (visitor : Node -> State (L * World) Node) (g : Node -> Node)
  (n : Node) : Prop :=
  forall s, exists s', visitor n s = (g n, s') /\ onlyLogs (snd s) (snd s').

(** Some node of the tree satisfies [p]. *)
Definition anyNode (p : Node -> bool) (tree : Node) : bool :=
  negb (allNodes (fun n => negb (p n)) tree).

(** A console line written by [debug("stripping file", ...)]. *)
Definition isStrippingFileLine (line : list LogArg) : bool :=
  match line with
  | LogString m :: _ => String.eqb m "bun-plugin-strip: stripping file"
  | _ => false
  end.

(** A console line written by [debug("stripping debugger", ...)]. *)
Definition isStrippingDebuggerLine (line : list LogArg) : bool :=
  match line with
  | LogString m :: _ => String.eqb m "bun-plugin-strip: stripping debugger"
  | _ => false
  end.

Definition countLines (p : list LogArg -> bool) (lines : list (list LogArg)) : nat :=
  List.length (List.filter p lines).

(** A stretch of a run of [walk] from state [s] to state [s'], in which a
    call is stripped exactly when [strips]: the flag [needed_to_strip] is
    raised accordingly, [verbose] is left alone, and the console gains one
    "stripping file" line when the flag was down, a call is stripped and
    [verbose] is set, and none otherwise. *)
Definition stretch (strips : bool) (s s' : bool * World) : Prop :=
  exists lines,
    console (snd s') = console (snd s) ++ lines
    /\ verbose (snd s') = verbose (snd s)
    /\ fst s' = fst s || strips
    /\ countLines isStrippingFileLine lines
       = if verbose (snd s) && negb (fst s) && strips then 1 else 0.

Definition optionHolds (P : Node -> Prop) (o : option Node) : Prop :=
  match o with
  | Some n => P n
  | None => True
  end.

(* ================================================================== *)
(** * Induction on trees *)

Section NodeInduction.
Variable P : Node -> Prop.
Hypothesis HIdentifier : forall t, P (Identifier t).
Hypothesis HPrivateIdentifier : forall t, P (PrivateIdentifier t).
Hypothesis HNumericLiteral : forall t, P (NumericLiteral t).
Hypothesis HStringLiteral : forall t, P (StringLiteral t).
Hypothesis HPropertyAccess : forall e n, P e -> P n -> P (PropertyAccessExpression e n).
Hypothesis HElementAccess : forall e a, P e -> P a -> P (ElementAccessExpression e a).
Hypothesis HCall : forall e args, P e -> Forall P args -> P (CallExpression e args).
Hypothesis HVoid : forall e, P e -> P (VoidExpression e).
Hypothesis HDebugger : P DebuggerStatement.
Hypothesis HEmpty : P EmptyStatement.
Hypothesis HExpressionStatement : forall e, P e -> P (ExpressionStatement e).
Hypothesis HReturn : forall e, optionHolds P e -> P (ReturnStatement e).
Hypothesis HIf : forall c t e, P c -> P t -> optionHolds P e -> P (IfStatement c t e).
Hypothesis HBlock : forall ss, Forall P ss -> P (Block ss).
Hypothesis HSourceFile : forall f ss, Forall P ss -> P (SourceFile f ss).
Hypothesis HOther : forall k t cs, Forall P cs -> P (OtherNode k t cs).

Fixpoint Node_induction (node : Node) : P node :=
  let all := fix all (l : list Node) : Forall P l :=
    match l with
    | [] => Forall_nil P
    | n :: rest => Forall_cons n (Node_induction n) (all rest)
    end in
  let opt := fun o : option Node =>
    match o return optionHolds P o with
    | Some n => Node_induction n
    | None => I
    end in
  match node with
  | Identifier t => HIdentifier t
  | PrivateIdentifier t => HPrivateIdentifier t
  | NumericLiteral t => HNumericLiteral t
  | StringLiteral t => HStringLiteral t
  | PropertyAccessExpression e n =>
      HPropertyAccess e n (Node_induction e) (Node_induction n)
  | ElementAccessExpression e a =>
      HElementAccess e a (Node_induction e) (Node_induction a)
  | CallExpression e args => HCall e args (Node_induction e) (all args)
  | VoidExpression e => HVoid e (Node_induction e)
  | DebuggerStatement => HDebugger
  | EmptyStatement => HEmpty
  | ExpressionStatement e => HExpressionStatement e (Node_induction e)
  | ReturnStatement e => HReturn e (opt e)
  | IfStatement c t e => HIf c t e (Node_induction c) (Node_induction t) (opt e)
  | Block ss => HBlock ss (all ss)
  | SourceFile f ss => HSourceFile f ss (all ss)
  | OtherNode k t cs => HOther k t cs (all cs)
  end.

End NodeInduction.

(* ================================================================== *)
(** * [walk] computes [rewrite] and only logs *)

Lemma onlyLogs_refl (w : World) : onlyLogs w w.
Proof.
  repeat split; exists []; split; [now rewrite app_nil_r | reflexivity].
Qed.

Lemma onlyLogs_trans (w1 w2 w3 : World) :
  onlyLogs w1 w2 -> onlyLogs w2 w3 -> onlyLogs w1 w3.
Proof.
  intros (V1 & R1 & P1 & l1 & C1 & Q1) (V2 & R2 & P2 & l2 & C2 & Q2).
  repeat split; try congruence.
  exists (l1 ++ l2); split.
  - now rewrite C2, C1, app_assoc.
  - intros Hv. rewrite (Q1 Hv), Q2; [reflexivity | congruence].
Qed.

Lemma debug_onlyLogs (msg : string) (args : list LogArg) (w : World) :
  onlyLogs w (snd (debug msg args w)).
Proof.
  unfold debug. destruct (verbose w) eqn:V; simpl.
  - repeat split; simpl; auto.
    eexists; split; [reflexivity | congruence].
  - apply onlyLogs_refl.
Qed.

Lemma debug_value (msg : string) (args : list LogArg) (w : World) :
  debug msg args w = (tt, snd (debug msg args w)).
Proof. unfold debug. now destruct (verbose w). Qed.

Lemma visitNodes_cons {S} (visitor : Node -> State S Node) (n : Node) (rest : list Node) :
  visitNodes visitor (n :: rest) =
  (n' <- visitor n ;; rest' <- visitNodes visitor rest ;; ret (n' :: rest')).
Proof. reflexivity. Qed.

Lemma visitNodes_computes {L} (visitor : Node -> State (L * World) Node)
  (g : Node -> Node) (nodes : list Node) :
  Forall (computes visitor g) nodes ->
  forall s, exists s',
    visitNodes visitor nodes s = (map g nodes, s') /\ onlyLogs (snd s) (snd s').
Proof.
  induction 1 as [| n rest Hn _ IH]; intros s.
  - exists s. split; [reflexivity | apply onlyLogs_refl].
  - rewrite visitNodes_cons. unfold bind. destruct (Hn s) as (s1 & E1 & L1). rewrite E1.
    destruct (IH s1) as (s2 & E2 & L2). rewrite E2.
    exists s2. split; [reflexivity | eapply onlyLogs_trans; eauto].
Qed.

Lemma visitOptional_computes {L} (visitor : Node -> State (L * World) Node)
  (g : Node -> Node) (o : option Node) :
  optionHolds (computes visitor g) o ->
  forall s, exists s',
    visitOptional visitor o s = (option_map g o, s') /\ onlyLogs (snd s) (snd s').
Proof.
  destruct o as [n |]; unfold visitOptional; simpl; intros Hn s.
  - unfold bind. destruct (Hn s) as (s1 & E1 & L1). rewrite E1.
    exists s1. split; [reflexivity | assumption].
  - exists s. split; [reflexivity | apply onlyLogs_refl].
Qed.

Section WalkFacts.
Context `{Host}.
Context {StripConfig : Type}.
Variable stripDebugger : StripConfig -> bool.
Variable compilerOptions : StripConfig -> CompilerOptions.
Variable shouldStrip : StripConfig -> Node -> bool.

Let walk' := walk stripDebugger shouldStrip.
Let rewrite' := rewrite stripDebugger shouldStrip.

Ltac step IH s :=
  let s1 := fresh "s" in
  let E := fresh "E" in
  let L := fresh "L" in
  destruct (IH s) as (s1 & E & L); rewrite E; clear E.

Ltac finish :=
  eexists; split; [reflexivity | eauto using onlyLogs_refl, onlyLogs_trans].

Lemma noteStripping_onlyLogs (fileName : string) (s : WalkState) :
  onlyLogs (snd s) (snd (snd (noteStripping fileName s))).
Proof.
  unfold noteStripping. destruct (fst s); simpl.
  - apply onlyLogs_refl.
  - rewrite debug_value. simpl. apply debug_onlyLogs.
Qed.

Lemma walk_rewrite (config : StripConfig) (fileName : string) (node : Node) :
  computes (walk' config fileName) (rewrite' config) node.
Proof.
  unfold walk', rewrite'.
  induction node using Node_induction; intros s0; simpl; unfold WalkState in *;
    try (exists s0; split; [reflexivity | apply onlyLogs_refl]).
  - (* property access *)
    unfold bind. step IHnode1 s0. step IHnode2 s. finish.
  - (* element access *)
    unfold bind. step IHnode1 s0. step IHnode2 s. finish.
  - (* call *)
    destruct (isPropertyAccessExpression node && shouldStrip config node).
    + unfold bind, ret.
      pose proof (noteStripping_onlyLogs fileName s0) as L.
      destruct (noteStripping fileName s0) as [u s1]. simpl in L.
      exists s1. split; [reflexivity | assumption].
    + unfold bind. step IHnode s0.
      destruct (visitNodes_computes _ _ _ H0 s) as (s2 & E2 & L2). rewrite E2.
      finish.
  - (* void *)
    unfold bind. step IHnode s0. finish.
  - (* debugger *)
    destruct (stripDebugger config).
    + unfold bind, ret, inWorld.
      pose proof (debug_onlyLogs "stripping debugger" [LogString fileName] (snd s0)) as L.
      destruct (debug "stripping debugger" [LogString fileName] (snd s0)) as [u w1].
      eexists. split; [reflexivity | exact L].
    + exists s0. split; [reflexivity | apply onlyLogs_refl].
  - (* expression statement *)
    unfold bind. step IHnode s0. finish.
  - (* return *)
    unfold bind.
    destruct (visitOptional_computes _ _ _ H0 s0) as (s1 & E1 & L1). rewrite E1.
    finish.
  - (* if *)
    unfold bind. step IHnode1 s0. step IHnode2 s.
    destruct (visitOptional_computes _ _ _ H0 s1) as (s2 & E2 & L2). rewrite E2.
    finish.
  - (* block *)
    unfold bind.
    destruct (visitNodes_computes _ _ _ H0 s0) as (s1 & E1 & L1). rewrite E1.
    finish.
  - (* source file *)
    unfold bind.
    destruct (visitNodes_computes _ _ _ H0 s0) as (s1 & E1 & L1). rewrite E1.
    finish.
  - (* other kinds *)
    unfold bind.
    destruct (visitNodes_computes _ _ _ H0 s0) as (s1 & E1 & L1). rewrite E1.
    finish.
Qed.

End WalkFacts.

(* ================================================================== *)
(** * Facts about [rewrite] *)

Section RewriteFacts.
Context {StripConfig : Type}.
Variable stripDebugger : StripConfig -> bool.
Variable shouldStrip : StripConfig -> Node -> bool.

Let rewrite' := rewrite stripDebugger shouldStrip.

Lemma map_fixed (g : Node -> Node) (q : Node -> bool) (l : list Node) :
  Forall (fun n => q n = true -> g n = n) l ->
  forallb q l = true -> map g l = l.
Proof.
  induction 1 as [| n rest Hn _ IH]; simpl; intros Hq; [reflexivity |].
  apply andb_true_iff in Hq as [Hq1 Hq2].
  now rewrite Hn, IH.
Qed.

Lemma option_map_fixed (g : Node -> Node) (q : Node -> bool) (o : option Node) :
  optionHolds (fun n => q n = true -> g n = n) o ->
  match o with Some n => q n | None => true end = true -> option_map g o = o.
Proof.
  destruct o as [n |]; simpl; intros Hn Hq; [now rewrite Hn | reflexivity].
Qed.

(** A tree in which [walk] replaces no node is left as it is. *)
Lemma rewrite_fixed (config : StripConfig) (tree : Node) :
  allNodes (fun n => negb (replaced stripDebugger shouldStrip config n)) tree = true ->
  rewrite' config tree = tree.
Proof.
  unfold rewrite'.
  induction tree using Node_induction; simpl; intros Hall;
    repeat match goal with
           | Hc : _ && _ = true |- _ => apply andb_true_iff in Hc as [? ?]
           end;
    try reflexivity.
  - now rewrite IHtree1, IHtree2.
  - now rewrite IHtree1, IHtree2.
  - match goal with
    | Hn : negb _ = true |- _ => apply negb_true_iff in Hn; rewrite Hn
    end.
    rewrite IHtree by assumption.
    now rewrite (map_fixed _ _ _ H) by assumption.
  - now rewrite IHtree.
  - match goal with
    | Hn : negb _ = true |- _ => apply negb_true_iff in Hn; now rewrite Hn
    end.
  - now rewrite IHtree.
  - now rewrite (option_map_fixed _ _ _ H) by assumption.
  - rewrite IHtree1, IHtree2 by assumption.
    now rewrite (option_map_fixed _ _ _ H) by assumption.
  - now rewrite (map_fixed _ _ _ H) by assumption.
  - now rewrite (map_fixed _ _ _ H) by assumption.
  - now rewrite (map_fixed _ _ _ H) by assumption.
Qed.

(** [rewrite] keeps identifiers, and makes none. *)
Lemma rewrite_isIdentifier (config : StripConfig) (node : Node) :
  isIdentifier (rewrite' config node) = isIdentifier node.
Proof.
  unfold rewrite'. destruct node; simpl; try reflexivity.
  - now destruct (isPropertyAccessExpression node && shouldStrip config node).
  - now destruct (stripDebugger config).
Qed.

Lemma rewrite_isTwoSegment (config : StripConfig) (expr : Node) :
  isTwoSegment (rewrite' config expr) = isTwoSegment expr.
Proof.
  unfold rewrite'. destruct expr; simpl; try reflexivity.
  - pose proof (rewrite_isIdentifier config expr1) as H1.
    pose proof (rewrite_isIdentifier config expr2) as H2.
    unfold rewrite' in *.
    destruct expr1, expr2; simpl in *;
      repeat match goal with
             | |- context [if ?c then _ else _] => destruct c
             end; simpl in *; congruence.
  - now destruct (isPropertyAccessExpression expr && shouldStrip config expr).
  - now destruct (stripDebugger config).
Qed.

Lemma twoSegment_fixed (config : StripConfig) (expr : Node) :
  isTwoSegment expr = true -> rewrite' config expr = expr.
Proof.
  unfold rewrite'.
  destruct expr as [| | | | e n | | | | | | | | | | |]; simpl; try discriminate.
  destruct e; try discriminate. destruct n; try discriminate. reflexivity.
Qed.

Section Shape.
(** Both variants of [shouldStrip] accept two-segment callees only. *)
Hypothesis shouldStrip_twoSegment :
  forall config expr, shouldStrip config expr = true -> isTwoSegment expr = true.

Lemma shouldStrip_rewrite (config : StripConfig) (expr : Node) :
  shouldStrip config (rewrite' config expr) = shouldStrip config expr.
Proof.
  destruct (isTwoSegment expr) eqn:Hshape.
  - now rewrite twoSegment_fixed.
  - destruct (shouldStrip config expr) eqn:H1;
      [apply shouldStrip_twoSegment in H1; congruence |].
    destruct (shouldStrip config (rewrite' config expr)) eqn:H2; [| reflexivity].
    apply shouldStrip_twoSegment in H2.
    rewrite rewrite_isTwoSegment in H2. congruence.
Qed.

Lemma forallb_map_all (g : Node -> Node) (q : Node -> bool) (l : list Node) :
  Forall (fun n => q (g n) = true) l -> forallb q (map g l) = true.
Proof.
  induction 1 as [| n rest Hn _ IH]; simpl; [reflexivity | now rewrite Hn, IH].
Qed.

(** In the tree [rewrite] returns, [walk] replaces no node. *)
Lemma rewrite_settled (config : StripConfig) (tree : Node) :
  allNodes (fun n => negb (replaced stripDebugger shouldStrip config n)) (rewrite' config tree) = true.
Proof.
  unfold rewrite'.
  induction tree using Node_induction; simpl; try reflexivity.
  - now rewrite IHtree1, IHtree2.
  - now rewrite IHtree1, IHtree2.
  - destruct (isPropertyAccessExpression tree && shouldStrip config tree) eqn:Hstrip;
      [reflexivity |].
    simpl. rewrite IHtree, (forallb_map_all _ _ _ H). simpl.
    rewrite andb_true_r. apply negb_true_iff.
    destruct (shouldStrip config tree) eqn:Hs.
    + pose proof (shouldStrip_twoSegment _ _ Hs) as Hshape.
      fold (rewrite' config tree). rewrite (twoSegment_fixed _ _ Hshape).
      now rewrite Hs in *.
    + fold (rewrite' config tree). rewrite shouldStrip_rewrite, Hs.
      apply andb_false_r.
  - now rewrite IHtree.
  - destruct (stripDebugger config) eqn:Hd; simpl; [reflexivity | now rewrite Hd].
  - now rewrite IHtree.
  - destruct e; simpl in *; [now rewrite H | reflexivity].
  - rewrite IHtree1, IHtree2. destruct e; simpl in *; [now rewrite H | reflexivity].
  - now rewrite (forallb_map_all _ _ _ H).
  - now rewrite (forallb_map_all _ _ _ H).
  - now rewrite (forallb_map_all _ _ _ H).
Qed.

Lemma rewrite_idempotent (config : StripConfig) (tree : Node) :
  rewrite' config (rewrite' config tree) = rewrite' config tree.
Proof. apply rewrite_fixed, rewrite_settled. Qed.

End Shape.
End RewriteFacts.

(* ================================================================== *)
(** * What [makeTransformer] and [stripFunctions] return *)

Section TransformerFacts.
Context `{Host}.
Context {StripConfig : Type}.
Variable stripDebugger : StripConfig -> bool.
Variable compilerOptions : StripConfig -> CompilerOptions.
Variable shouldStrip : StripConfig -> Node -> bool.

Lemma makeTransformer_spec (config : StripConfig) (source : Node) (w : World) :
  exists w',
    makeTransformer stripDebugger shouldStrip config source w
    = (rewrite stripDebugger shouldStrip config source, w')
    /\ onlyLogs w w'.
Proof.
  unfold makeTransformer.
  destruct (walk_rewrite stripDebugger shouldStrip config (fileNameOf source) source
              (false, w)) as (s' & E & L).
  rewrite E. exists (snd s'). split; [reflexivity | exact L].
Qed.

(** The text [stripFunctions] returns is the print of the rewritten parse
    tree; the run records one parse, and otherwise only logs. *)
Lemma stripFunctions_spec (config : StripConfig) (path source : string) (w : World) :
  let sourceFile :=
    createSourceFile (basename path) source (targetOrES2015 (compilerOptions config)) in
  exists w',
    stripFunctions stripDebugger compilerOptions shouldStrip config path source w
    = (printNode (rewrite stripDebugger shouldStrip config sourceFile) sourceFile, w')
    /\ verbose w' = verbose w
    /\ reads w' = reads w
    /\ parsed w' = parsed w ++ [(basename path, source)]
    /\ (exists lines, console w' = console w ++ lines /\ (verbose w = false -> lines = [])).
Proof.
  intros sourceFile. unfold stripFunctions, bind, parseSource.
  fold sourceFile.
  match goal with
  | |- context [makeTransformer _ _ config sourceFile ?w0] =>
      destruct (makeTransformer_spec config sourceFile w0) as (w' & E & V & R & P & C)
  end.
  rewrite E. exists w'. simpl in *.
  repeat split; assumption.
Qed.

End TransformerFacts.

Lemma forallb_impl2 (p q r : Node -> bool) (l : list Node) :
  Forall (fun n => p n = true -> q n = true -> r n = true) l ->
  forallb p l = true -> forallb q l = true -> forallb r l = true.
Proof.
  induction 1 as [| n rest Hn _ IH]; simpl; intros Hp Hq; [reflexivity |].
  apply andb_true_iff in Hp as [? ?]. apply andb_true_iff in Hq as [? ?].
  now rewrite Hn, IH.
Qed.

(** [allNodes] is monotone in two predicates. *)
Lemma allNodes_impl2 (p q r : Node -> bool) (tree : Node) :
  (forall n, p n = true -> q n = true -> r n = true) ->
  allNodes p tree = true -> allNodes q tree = true -> allNodes r tree = true.
Proof.
  intros Himp.
  induction tree using Node_induction; simpl; intros Hp Hq;
    repeat match goal with
           | Hc : _ && _ = true |- _ => apply andb_true_iff in Hc as [? ?]
           end;
    rewrite Himp by assumption; simpl; try reflexivity.
  - now rewrite IHtree1, IHtree2.
  - now rewrite IHtree1, IHtree2.
  - rewrite IHtree by assumption. simpl. eapply forallb_impl2; eauto.
  - now apply IHtree.
  - now apply IHtree.
  - destruct e; simpl in *; [now apply H | reflexivity].
  - rewrite IHtree1, IHtree2 by assumption. simpl.
    destruct e; simpl in *; [now apply H | reflexivity].
  - eapply forallb_impl2; eauto.
  - eapply forallb_impl2; eauto.
  - eapply forallb_impl2; eauto.
Qed.

(* ================================================================== *)
(** * The model of minimatch on sample input *)

Example Glob_dotted_names :
  Glob.minimatch "console.log" "console.*" = true
  /\ Glob.minimatch "assert.ok" "console.*" = false
  /\ Glob.minimatch "assert.ok" "assert.*" = true
  /\ Glob.minimatch "myModule.foo" "myModule.foo" = true
  /\ Glob.minimatch "myModule.bar" "myModule.foo" = false.
Proof. repeat split; reflexivity. Qed.

Example Glob_paths :
  Glob.minimatch "x.ts" "*.ts" = true
  /\ Glob.minimatch "src/x.ts" "*.ts" = false
  /\ Glob.minimatch "src/x.ts" "**/*.ts" = true
  /\ Glob.minimatch "src/a.test.ts" "**/*.test.ts" = true
  /\ Glob.minimatch "src/x.ts" "**" = true
  /\ Glob.minimatch "src/.git/x.ts" "**" = false
  /\ Glob.minimatch ".hidden" "*" = false
  /\ Glob.minimatch "node_modules" "**node_modules**" = true
  /\ Glob.minimatch "src/node_modules/x.ts" "**node_modules**" = false
  /\ Glob.minimatch "src/node_modules/x.ts" "**/node_modules/**" = true.
Proof. repeat split; reflexivity. Qed.

(** The patterns written in the two source files and in the README are
    inside the fragment, and their regular expressions are modelled
    exactly. *)
Example Glob_source_patterns_supported :
  forallb (fun p => Glob.supported p && Glob.exactRe p)
          ["console.*"; "assert.*"; "myModule.foo"; "*"; "**";
           "*node_modules*"; "**node_modules**"] = true.
Proof. reflexivity. Qed.

(* ================================================================== *)
(** * The function-name matcher of [shouldStrip] *)

Section Matcher.
Context `{Host}.

Lemma Index_shouldStrip_twoSegment (config : Index.StripConfig.t) (expr : Node) :
  Index.shouldStrip config expr = true -> isTwoSegment expr = true.
Proof.
  destruct expr as [| | | | obj prop | | | | | | | | | | |]; simpl; try discriminate.
  destruct obj; simpl; try discriminate. destruct prop; simpl; try discriminate.
  reflexivity.
Qed.

Lemma Part000_shouldStrip_twoSegment (config : Part000.StripConfig.t) (expr : Node) :
  Part000.shouldStrip config expr = true -> isTwoSegment expr = true.
Proof.
  unfold Part000.shouldStrip.
  destruct (Part000.StripConfig.functions config); try discriminate;
    (destruct expr as [| | | | obj prop | | | | | | | | | | |]; simpl; try discriminate;
     destruct obj; simpl; try discriminate; destruct prop; simpl; try discriminate;
     reflexivity).
Qed.

(** In [src/src/index.ts] the loop leaves after its first turn: only the
    first pattern of the list is tried. *)
Lemma Index_shouldStrip_first (config : Index.StripConfig.t) (baseName methodName : string) :
  Index.shouldStrip config
    (PropertyAccessExpression (Identifier baseName) (Identifier methodName))
  = match Index.StripConfig.functions config with
    | [] => false
    | p :: _ => minimatch (fullNameOf baseName methodName) p
    end.
Proof.
  simpl. destruct (Index.StripConfig.functions config) as [| p rest]; [reflexivity |].
  now destruct (minimatch (fullNameOf baseName methodName) p).
Qed.

Lemma Index_shouldStrip_matchesAny (config : Index.StripConfig.t) (baseName methodName : string) :
  Index.shouldStrip config
    (PropertyAccessExpression (Identifier baseName) (Identifier methodName)) = true ->
  matchesAny (fullNameOf baseName methodName) (Index.StripConfig.functions config) = true.
Proof.
  rewrite Index_shouldStrip_first. unfold matchesAny.
  destruct (Index.StripConfig.functions config) as [| p rest]; [discriminate |].
  simpl. now intros ->.
Qed.

Lemma loop_existsb (fullName : string) (patterns : list string) :
  (fix loop (ps : list string) : bool :=
     match ps with
     | [] => false
     | p :: rest => if minimatch fullName p then true else loop rest
     end) patterns
  = matchesAny fullName patterns.
Proof.
  unfold matchesAny.
  induction patterns as [| p rest IH]; simpl; [reflexivity |].
  now destruct (minimatch fullName p).
Qed.

(** In [src/unnamed/part_000] the matcher of [shouldStrip] is match-any over
    the whole list: it returns true if and only if the candidate matches at
    least one pattern. *)
Lemma Part000_shouldStrip_matchesAny
  (patterns : list string) (stripDebugger : bool) (compilerOptions : CompilerOptions)
  (baseName methodName : string) :
  Part000.shouldStrip (Part000.StripConfig.mk (FArray patterns) stripDebugger compilerOptions)
    (PropertyAccessExpression (Identifier baseName) (Identifier methodName)) = true
  <-> exists p, In p patterns /\ minimatch (fullNameOf baseName methodName) p = true.
Proof.
  unfold Part000.shouldStrip. cbn [Part000.StripConfig.functions isIdentifier negb orb
                                    textOf Part000.spread].
  rewrite loop_existsb. unfold matchesAny. apply existsb_exists.
Qed.

End Matcher.

(** C1 (evaluation).  With the patterns of the README, ["console.*"] and
    ["myModule.foo"], the candidate [myModule.foo] matches the second pattern,
    yet [shouldStrip] of [src/src/index.ts] answers false: its loop gives up
    after the first pattern.  [shouldStrip] of [src/unnamed/part_000]
    answers true on the same input. *)
Theorem C1_index_matcher_tries_first_pattern_only :
  let patterns := ["console.*"; "myModule.foo"] in
  let callee := PropertyAccessExpression (Identifier "myModule") (Identifier "foo") in
  @matchesAny Demo.host "myModule.foo" patterns = true
  /\ @Index.shouldStrip Demo.host
       (Index.StripConfig.mk patterns true getDefaultCompilerOptions) callee = false
  /\ @Part000.shouldStrip Demo.host
       (Part000.StripConfig.mk (FArray patterns) true getDefaultCompilerOptions) callee = true.
Proof. repeat split; vm_compute; reflexivity. Qed.

(* ================================================================== *)
(** * The rewriter of [src/src/index.ts] *)

Section IndexRewriter.
Context `{Host}.

Lemma Index_walk_rewrite (config : Index.StripConfig.t) (fileName : string) (node : Node)
  (s : WalkState) :
  fst (Index.walk config fileName node s) = Index.rewrite config node.
Proof.
  unfold Index.walk, Index.rewrite.
  destruct (walk_rewrite Index.StripConfig.stripDebugger Index.shouldStrip
              config fileName node s) as (s' & E & _).
  now rewrite E.
Qed.

Lemma Part000_walk_rewrite (config : Part000.StripConfig.t) (fileName : string) (node : Node)
  (s : WalkState) :
  fst (Part000.walk config fileName node s) = Part000.rewrite config node.
Proof.
  unfold Part000.walk, Part000.rewrite.
  destruct (walk_rewrite Part000.StripConfig.stripDebugger Part000.shouldStrip
              config fileName node s) as (s' & E & _).
  now rewrite E.
Qed.

Lemma twoSegment_inv (expr : Node) :
  isTwoSegment expr = true ->
  exists baseName methodName,
    expr = PropertyAccessExpression (Identifier baseName) (Identifier methodName).
Proof.
  destruct expr as [| | | | obj prop | | | | | | | | | | |]; simpl; try discriminate.
  destruct obj; try discriminate. destruct prop; try discriminate.
  intros _. eauto.
Qed.

(** A call that [walk] replaces becomes [void 0]; its arguments are gone. *)
Lemma Index_stripped_call_is_void_zero (config : Index.StripConfig.t) (fileName : string)
  (expr : Node) (args : list Node) (s : WalkState) :
  Index.shouldStrip config expr = true ->
  fst (Index.walk config fileName (CallExpression expr args) s)
  = VoidExpression (NumericLiteral "0").
Proof.
  intros Hs. rewrite Index_walk_rewrite. unfold Index.rewrite. simpl.
  rewrite Hs.
  destruct (twoSegment_inv _ (Index_shouldStrip_twoSegment _ _ Hs)) as (a & b & ->).
  reflexivity.
Qed.

(** A call whose callee matches the first pattern is replaced. *)
Lemma Index_call_matching_first_pattern_replaced
  (p : string) (rest : list string) (stripDebugger : bool) (compilerOptions : CompilerOptions)
  (fileName baseName methodName : string) (args : list Node) (s : WalkState) :
  minimatch (fullNameOf baseName methodName) p = true ->
  fst (Index.walk (Index.StripConfig.mk (p :: rest) stripDebugger compilerOptions) fileName
         (CallExpression
            (PropertyAccessExpression (Identifier baseName) (Identifier methodName)) args) s)
  = VoidExpression (NumericLiteral "0").
Proof.
  intros Hm. apply Index_stripped_call_is_void_zero.
  rewrite Index_shouldStrip_first. exact Hm.
Qed.

(** A debugger statement becomes an empty statement when [stripDebugger] is
    set, and stays otherwise. *)
Lemma Index_debugger_statement (config : Index.StripConfig.t) (fileName : string)
  (s : WalkState) :
  fst (Index.walk config fileName DebuggerStatement s)
  = if Index.StripConfig.stripDebugger config then EmptyStatement else DebuggerStatement.
Proof. rewrite Index_walk_rewrite. reflexivity. Qed.

(** In [src/unnamed/part_000] every call whose two-segment callee matches one
    of the patterns is replaced by [void 0]. *)
Lemma Part000_matching_call_replaced
  (patterns : list string) (stripDebugger : bool) (compilerOptions : CompilerOptions)
  (fileName : string) (node : Node) (s : WalkState) :
  isMatchingCall patterns node = true ->
  fst (Part000.walk (Part000.StripConfig.mk (FArray patterns) stripDebugger compilerOptions)
         fileName node s)
  = VoidExpression (NumericLiteral "0").
Proof.
  intros Hm. rewrite Part000_walk_rewrite.
  destruct node as [| | | | | | expr args | | | | | | | | |]; try discriminate.
  destruct expr as [| | | | obj prop | | | | | | | | | | |]; try discriminate.
  destruct obj; try discriminate. destruct prop; try discriminate.
  simpl in Hm.
  unfold Part000.rewrite. cbn [rewrite isPropertyAccessExpression andb].
  assert (Part000.shouldStrip
            (Part000.StripConfig.mk (FArray patterns) stripDebugger compilerOptions)
            (PropertyAccessExpression (Identifier text) (Identifier text0)) = true) as ->.
  { apply Part000_shouldStrip_matchesAny.
    unfold matchesAny in Hm. apply existsb_exists in Hm. exact Hm. }
  reflexivity.
Qed.

End IndexRewriter.

(** C3.  Whatever the configuration, a call whose callee is not of the exact
    shape [identifier.identifier] is not stripped: [shouldStrip] rejects the
    callee, and [walk] returns the call, rebuilt around its visited
    children. *)
Theorem C3_only_two_segment_callee_is_stripped `{Host}
  (config : Index.StripConfig.t) (fileName : string) (expr : Node) (args : list Node)
  (s : WalkState) :
  isTwoSegment expr = false ->
  Index.shouldStrip config expr = false
  /\ fst (Index.walk config fileName (CallExpression expr args) s)
     = CallExpression (Index.rewrite config expr) (map (Index.rewrite config) args).
Proof.
  intros Hshape.
  assert (Index.shouldStrip config expr = false) as Hs.
  { destruct (Index.shouldStrip config expr) eqn:E; [| reflexivity].
    apply Index_shouldStrip_twoSegment in E. congruence. }
  split; [exact Hs |].
  rewrite Index_walk_rewrite. unfold Index.rewrite. simpl.
  rewrite Hs, andb_false_r. reflexivity.
Qed.

(** [a.b.c()] under the pattern ["a.*"]: not stripped. *)
Lemma C3_witness_two_level_path :
  let config := Index.StripConfig.mk ["a.*"] true getDefaultCompilerOptions in
  let callee :=
    PropertyAccessExpression
      (PropertyAccessExpression (Identifier "a") (Identifier "b")) (Identifier "c") in
  isTwoSegment callee = false
  /\ @Index.shouldStrip Demo.host config callee = false
  /\ fst (@Index.walk Demo.host config "x.ts" (CallExpression callee []) (false, Demo.world0))
     = CallExpression callee [].
Proof.
  split; [reflexivity |].
  exact (@C3_only_two_segment_callee_is_stripped Demo.host
           (Index.StripConfig.mk ["a.*"] true getDefaultCompilerOptions) "x.ts"
           (PropertyAccessExpression
              (PropertyAccessExpression (Identifier "a") (Identifier "b")) (Identifier "c"))
           [] (false, Demo.world0) eq_refl).
Defined.

(** The same holds of [src/unnamed/part_000]. *)
Lemma Part000_only_two_segment_callee_is_stripped `{Host}
  (config : Part000.StripConfig.t) (fileName : string) (expr : Node) (args : list Node)
  (s : WalkState) :
  isTwoSegment expr = false ->
  fst (Part000.walk config fileName (CallExpression expr args) s)
  = CallExpression (Part000.rewrite config expr) (map (Part000.rewrite config) args).
Proof.
  intros Hshape.
  assert (Part000.shouldStrip config expr = false) as Hs.
  { destruct (Part000.shouldStrip config expr) eqn:E; [| reflexivity].
    apply Part000_shouldStrip_twoSegment in E. congruence. }
  rewrite Part000_walk_rewrite. unfold Part000.rewrite. simpl.
  rewrite Hs, andb_false_r. reflexivity.
Qed.

(** [a[b]()] and [fn()] are kept as well, under a pattern that matches
    everything in one portion. *)
Example computed_and_bare_callees_are_kept :
  let config := Index.StripConfig.mk ["*"] true getDefaultCompilerOptions in
  let computed :=
    CallExpression (ElementAccessExpression (Identifier "a") (Identifier "b")) [] in
  let bare := CallExpression (Identifier "fn") [] in
  fst (@Index.walk Demo.host config "x.ts" computed (false, Demo.world0)) = computed
  /\ fst (@Index.walk Demo.host config "x.ts" bare (false, Demo.world0)) = bare.
Proof. split; reflexivity. Qed.

(** The end-to-end example: under the defaults,
    [if (x) { console.log('hi'); debugger; return x; }] becomes
    [if (x) { void 0; ; return x; }]. *)
Example end_to_end_example :
  let config :=
    Index.StripConfig.mk ["console.*"; "assert.*"] true getDefaultCompilerOptions in
  fst (@Index.stripFunctions Demo.host config "src/x.ts"
         "if (x) { console.log('hi'); debugger; return x; }" Demo.world0)
  = "if (x) { void 0; ; return x; }".
Proof. vm_compute. reflexivity. Qed.

(** The arguments of a stripped call go with it, calls among them
    included: [console.log(fn(), assert.ok(x))] becomes [void 0]. *)
Example arguments_of_a_stripped_call_are_discarded :
  let config :=
    Index.StripConfig.mk ["console.*"; "assert.*"] true getDefaultCompilerOptions in
  fst (@Index.walk Demo.host config "x.ts"
         (Demo.call "console" "log"
            [CallExpression (Identifier "fn") []; Demo.call "assert" "ok" [Identifier "x"]])
         (false, Demo.world0))
  = VoidExpression (NumericLiteral "0").
Proof. reflexivity. Qed.

(** C4 (evaluation).  Under the default patterns ["console.*"] and
    ["assert.*"], the call [assert.ok(x)] has a two-segment callee that
    matches the second pattern, yet [walk] of [src/src/index.ts] returns the
    call as it is, and [stripFunctions] prints it back: [shouldStrip] has
    given up after the first pattern. *)
Theorem C4_index_call_matching_second_pattern_is_kept :
  let patterns := ["console.*"; "assert.*"] in
  let config := Index.StripConfig.mk patterns true getDefaultCompilerOptions in
  let node := Demo.call "assert" "ok" [Identifier "x"] in
  @isMatchingCall Demo.host patterns node = true
  /\ fst (@Index.walk Demo.host config "x.ts" node (false, Demo.world0)) = node
  /\ fst (@Index.stripFunctions Demo.host config "src/assert.ts" "assert.ok(x);" Demo.world0)
     = "assert.ok(x);".
Proof. repeat split; vm_compute; reflexivity. Qed.

(* ================================================================== *)
(** * Trees with nothing to strip *)

Section NothingMatches.
Context `{Host}.

Lemma Index_nothing_replaced (config : Index.StripConfig.t) (tree : Node) :
  noMatchingCall (Index.StripConfig.functions config) tree = true ->
  noDebugger tree = true ->
  allNodes (fun n => negb (replaced Index.StripConfig.stripDebugger Index.shouldStrip config n))
           tree = true.
Proof.
  unfold noMatchingCall, noDebugger. apply allNodes_impl2.
  intros n Hcall Hdebugger.
  destruct n as [| | | | | | expr args | | | | | | | | |]; try reflexivity;
    [| discriminate].
  simpl. apply negb_true_iff.
  destruct (Index.shouldStrip config expr) eqn:Hs; [| apply andb_false_r].
  destruct (twoSegment_inv _ (Index_shouldStrip_twoSegment _ _ Hs)) as (a & b & ->).
  apply Index_shouldStrip_matchesAny in Hs.
  simpl in Hcall. rewrite Hs in Hcall. discriminate.
Qed.

End NothingMatches.

(** C7.  When the parsed source holds no call whose two-segment dotted callee
    matches a configured pattern, and no debugger statement, the rewrite is
    the identity on the tree, and [stripFunctions] returns the print of the
    parse tree itself: the source text, up to the printer's formatting. *)
Theorem C7_rewrite_is_identity_when_nothing_matches `{Host}
  (config : Index.StripConfig.t) (path source : string) (w : World) :
  let sourceFile :=
    createSourceFile (basename path) source
      (targetOrES2015 (Index.StripConfig.compilerOptions config)) in
  noMatchingCall (Index.StripConfig.functions config) sourceFile = true ->
  noDebugger sourceFile = true ->
  fst (Index.makeTransformer config sourceFile w) = sourceFile
  /\ fst (Index.stripFunctions config path source w) = printNode sourceFile sourceFile.
Proof.
  intros sourceFile Hcalls Hdebugger.
  pose proof (rewrite_fixed _ _ config sourceFile
                (Index_nothing_replaced config sourceFile Hcalls Hdebugger)) as Hfix.
  split.
  - unfold Index.makeTransformer.
    destruct (makeTransformer_spec Index.StripConfig.stripDebugger Index.shouldStrip
                config sourceFile w) as (w' & E & _).
    rewrite E. exact Hfix.
  - unfold Index.stripFunctions.
    destruct (stripFunctions_spec Index.StripConfig.stripDebugger
                Index.StripConfig.compilerOptions Index.shouldStrip
                config path source w) as (w' & E & _).
    rewrite E. simpl. fold sourceFile. now rewrite Hfix.
Qed.

(** [a.b.c(); obj[k](); fn(1);] under the default patterns. *)
Lemma C7_witness_plain_program :
  let config :=
    Index.StripConfig.mk ["console.*"; "assert.*"] true getDefaultCompilerOptions in
  let source := "a.b.c(); obj[k](); fn(1);" in
  let sourceFile := @createSourceFile Demo.host "plain.ts" source ES5 in
  @noMatchingCall Demo.host (Index.StripConfig.functions config) sourceFile = true
  /\ noDebugger sourceFile = true
  /\ fst (@Index.makeTransformer Demo.host config sourceFile Demo.world0) = sourceFile
  /\ fst (@Index.stripFunctions Demo.host config "src/plain.ts" source Demo.world0)
     = @printNode Demo.host sourceFile sourceFile.
Proof.
  split; [vm_compute; reflexivity |].
  split; [vm_compute; reflexivity |].
  exact (@C7_rewrite_is_identity_when_nothing_matches Demo.host
           (Index.StripConfig.mk ["console.*"; "assert.*"] true getDefaultCompilerOptions)
           "src/plain.ts" "a.b.c(); obj[k](); fn(1);" Demo.world0 eq_refl eq_refl).
Defined.

(* ================================================================== *)
(** * Idempotence *)




(* ================================================================== *)
(** * The verbose flag *)

(** C10.  The text [stripFunctions] returns is a function of the
    configuration, the path and the source alone: it is the same from any two
    worlds, in particular with [verbose] set and unset.  With [verbose] unset
    the console is left as it was, and the run never changes the flag. *)
Theorem C10_output_is_independent_of_verbose `{Host}
  (config : Index.StripConfig.t) (path source : string) (w w1 w2 : World) :
  fst (Index.stripFunctions config path source w1)
  = fst (Index.stripFunctions config path source w2)
  /\ fst (Index.stripFunctions config path source (withVerbose true w))
     = fst (Index.stripFunctions config path source (withVerbose false w))
  /\ console (snd (Index.stripFunctions config path source (withVerbose false w)))
     = console w
  /\ verbose (snd (Index.stripFunctions config path source w)) = verbose w.
Proof.
  unfold Index.stripFunctions.
  assert (forall w0,
             fst (stripFunctions Index.StripConfig.stripDebugger
                    Index.StripConfig.compilerOptions Index.shouldStrip
                    config path source w0)
             = printNode
                 (Index.rewrite config
                    (createSourceFile (basename path) source
                       (targetOrES2015 (Index.StripConfig.compilerOptions config))))
                 (createSourceFile (basename path) source
                    (targetOrES2015 (Index.StripConfig.compilerOptions config)))) as Htext.
  { intros w0.
    destruct (stripFunctions_spec Index.StripConfig.stripDebugger
                Index.StripConfig.compilerOptions Index.shouldStrip
                config path source w0) as (w' & E & _).
    now rewrite E. }
  repeat split.
  - now rewrite !Htext.
  - now rewrite !Htext.
  - destruct (stripFunctions_spec Index.StripConfig.stripDebugger
                Index.StripConfig.compilerOptions Index.shouldStrip
                config path source (withVerbose false w))
      as (w' & E & _ & _ & _ & lines & Hconsole & Hquiet).
    rewrite E. simpl. rewrite Hconsole, Hquiet by reflexivity.
    simpl. apply app_nil_r.
  - destruct (stripFunctions_spec Index.StripConfig.stripDebugger
                Index.StripConfig.compilerOptions Index.shouldStrip
                config path source w) as (w' & E & Hv & _).
    rewrite E. exact Hv.
Qed.

(** With [verbose] set, the same run does write to the console. *)
Example verbose_run_logs :
  let config :=
    Index.StripConfig.mk ["console.*"; "assert.*"] true getDefaultCompilerOptions in
  let source := "if (x) { console.log('hi'); debugger; return x; }" in
  console (snd (@Index.stripFunctions Demo.host config "src/x.ts" source
                  (withVerbose true Demo.world0)))
  = [[LogString "bun-plugin-strip: stripping file"; LogString "x.ts"];
     [LogString "bun-plugin-strip: stripping debugger"; LogString "x.ts"]].
Proof. vm_compute. reflexivity. Qed.

(* ================================================================== *)
(** * The configuration resolver *)

Lemma Index_getCompilerOptions_ok `{Host} (sourcePath : string) :
  exists options, Index.getCompilerOptions sourcePath = Ok options.
Proof.
  unfold Index.getCompilerOptions, tryCatch.
  match goal with
  | |- context [match ?body with Ok _ => _ | Throw _ => _ end] => destruct body
  end; eauto.
Qed.

(** C9 (as amended).  [getCompilerOptions] never raises.  It returns the
    built-in default options whenever a step of reading and parsing the
    project file raises: the file cannot be read, the parser raises, the
    parsed result has no [config] object to take [compilerOptions] from, or
    the option converter raises.  When no step raises, it returns the options
    of the converter. *)
Theorem C9_default_options_when_a_step_raises `{Host} (sourcePath : string) :
  (exists options, Index.getCompilerOptions sourcePath = Ok options)
  /\ (forall err,
         readFileSync sourcePath = Throw err ->
         Index.getCompilerOptions sourcePath = Ok getDefaultCompilerOptions)
  /\ (forall content err,
         readFileSync sourcePath = Ok content ->
         parseConfigFileTextToJson "" content = Throw err ->
         Index.getCompilerOptions sourcePath = Ok getDefaultCompilerOptions)
  /\ (forall content result,
         readFileSync sourcePath = Ok content ->
         parseConfigFileTextToJson "" content = Ok result ->
         config result = JUndefined \/ config result = JNull ->
         Index.getCompilerOptions sourcePath = Ok getDefaultCompilerOptions)
  /\ (forall content result compilerOptions err,
         readFileSync sourcePath = Ok content ->
         parseConfigFileTextToJson "" content = Ok result ->
         getProp (config result) "compilerOptions" = Ok compilerOptions ->
         convertCompilerOptionsFromJson compilerOptions "" = Throw err ->
         Index.getCompilerOptions sourcePath = Ok getDefaultCompilerOptions)
  /\ (forall content result compilerOptions converted,
         readFileSync sourcePath = Ok content ->
         parseConfigFileTextToJson "" content = Ok result ->
         getProp (config result) "compilerOptions" = Ok compilerOptions ->
         convertCompilerOptionsFromJson compilerOptions "" = Ok converted ->
         Index.getCompilerOptions sourcePath = Ok (options converted)).
Proof.
  split; [apply Index_getCompilerOptions_ok |].
  unfold Index.getCompilerOptions.
  repeat split.
  - intros err ->. reflexivity.
  - intros content err -> Hparse. simpl. now rewrite Hparse.
  - intros content result -> Hparse Hconfig. simpl. rewrite Hparse. simpl.
    now destruct Hconfig as [-> | ->].
  - intros content result compilerOptions err -> Hparse Hprop Hconvert.
    simpl. rewrite Hparse. simpl. rewrite Hprop. simpl. now rewrite Hconvert.
  - intros content result compilerOptions converted -> Hparse Hprop Hconvert.
    simpl. rewrite Hparse. simpl. rewrite Hprop. simpl. now rewrite Hconvert.
Qed.

(** A project file that does not exist, and one that is read and parsed
    without an exception. *)
Lemma C9_witness_missing_file :
  @readFileSync Demo.host "/project/missing.json" = Throw "ENOENT"
  /\ @Index.getCompilerOptions Demo.host "/project/missing.json"
     = Ok getDefaultCompilerOptions
  /\ @Index.getCompilerOptions Demo.host "/project/tsconfig.json"
     = Ok Demo.emptyOptions.
Proof.
  pose proof (@C9_default_options_when_a_step_raises Demo.host "/project/missing.json")
    as (_ & Hread & _).
  pose proof (@C9_default_options_when_a_step_raises Demo.host "/project/tsconfig.json")
    as (_ & _ & _ & _ & _ & Hok).
  split; [reflexivity |].
  split.
  - exact (Hread "ENOENT" eq_refl).
  - exact (Hok "{}" {| config := JObject []; error := None |} JUndefined
             {| options := Demo.emptyOptions; errors := [] |}
             eq_refl eq_refl eq_refl eq_refl).
Defined.

(** C9 (counterexample).  A project file that lacks [compilerOptions], and
    one with malformed content: nothing raises, the converter is handed
    [undefined] and answers with empty options, and these, not the built-in
    default options, are what [getCompilerOptions] returns. *)
Lemma C9_counterexample_missing_compilerOptions :
  @readFileSync Demo.host "/project/tsconfig.json" = Ok "{}"
  /\ @parseConfigFileTextToJson Demo.host "" "{}"
     = Ok {| config := JObject []; error := None |}
  /\ getProp (JObject []) "compilerOptions" = Ok JUndefined
  /\ @Index.getCompilerOptions Demo.host "/project/tsconfig.json"
     <> Ok getDefaultCompilerOptions
  /\ @parseConfigFileTextToJson Demo.host "" "{ compilerOptions"
     = Ok {| config := JObject []; error := Some "syntax error" |}
  /\ @Index.getCompilerOptions Demo.host "/project/broken.json"
     <> Ok getDefaultCompilerOptions.
Proof.
  repeat split; try reflexivity; vm_compute; discriminate.
Qed.

(** The options returned for such a file carry no target, and
    [stripFunctions] then parses with [ES2015]; the built-in default options
    carry [ES5]. *)
Example parse_target_without_compilerOptions :
  match @Index.getCompilerOptions Demo.host "/project/tsconfig.json" with
  | Ok found => targetOrES2015 found
  | Throw _ => ES3
  end = ES2015
  /\ targetOrES2015 getDefaultCompilerOptions = ES5.
Proof. split; reflexivity. Qed.

(* ================================================================== *)
(** * The plugin of [src/src/index.ts] *)

Section IndexPlugin.
Context `{Host}.

(** [Strip] returns a plugin with one registration: its filter is the
    include expression, its callback the pass-through when there is nothing
    to strip and the loading callback otherwise. *)
Lemma Index_Strip_spec (config : Index.Config.t) (w : World) :
  exists compilerOptions w',
    Index.getCompilerOptions
      (nullish (Index.Config.tsconfigPath config) (resolveFromCwd "./tsconfig.json"))
    = Ok compilerOptions
    /\ Index.Strip config w
       = (Ok {| name := "strip-debug";
                setup :=
                  [ {| filter := Index.includeOf config;
                       callback :=
                         if Index.nothingToStrip config then fun _ => ret Undefined
                         else Index.loadCallback (Index.excludeOf config)
                                (Index.StripConfig.mk
                                   (nullish (Index.Config.functions config)
                                      ["console.*"; "assert.*"])
                                   (nullish (Index.Config.debugger config) true)
                                   compilerOptions) |} ] |}, w')
    /\ reads w' = reads w /\ parsed w' = parsed w.
Proof.
  destruct (Index_getCompilerOptions_ok
              (nullish (Index.Config.tsconfigPath config) (resolveFromCwd "./tsconfig.json")))
    as (compilerOptions & Hco).
  exists compilerOptions.
  unfold Index.Strip, Index.makeFileFilter. rewrite Hco.
  fold (Index.includeOf config) (Index.excludeOf config).
  unfold Index.nothingToStrip.
  destruct (Nat.eqb _ 0 && negb _);
    unfold bind, getVerbose, setVerbose, debug, ret; simpl;
    destruct (nullish (Index.Config.verbose config) (verbose w));
    eexists; repeat split; reflexivity.
Qed.

End IndexPlugin.

(** C6.  When the configuration resolves to an empty list of functions with
    debugger stripping off, [Strip] returns a plugin whose load hook is a
    pure pass-through: for every path it answers [undefined], Bun's
    no-change signal, and leaves the world as it was, so no file is read, no
    source is parsed and nothing is logged. *)
Theorem C6_nothing_to_strip_is_pass_through `{Host}
  (config : Index.Config.t) (w : World) :
  Index.Config.functions config = Some [] ->
  Index.Config.debugger config = Some false ->
  exists plugin w',
    Index.Strip config w = (Ok plugin, w')
    /\ parsed w' = parsed w
    /\ forall path w1, runOnLoad (setup plugin) path w1 = (Undefined, w1).
Proof.
  intros Hfunctions Hdebugger.
  destruct (Index_Strip_spec config w) as (compilerOptions & w' & _ & E & _ & Hparsed).
  eexists. exists w'. split; [exact E |]. split; [exact Hparsed |].
  intros path w1. cbn [setup runOnLoad filter callback].
  unfold Index.nothingToStrip. rewrite Hfunctions, Hdebugger. simpl.
  now destruct (Index.includeOf config path).
Qed.

(** [Strip({ functions: [], debugger: false })] *)
Lemma C6_witness_empty_functions :
  let config := Index.Config.mk None None (Some false) (Some []) None None in
  exists plugin w',
    @Index.Strip Demo.host config Demo.world0 = (Ok plugin, w')
    /\ parsed w' = parsed Demo.world0
    /\ forall path w1, runOnLoad (setup plugin) path w1 = (Undefined, w1).
Proof.
  exact (@C6_nothing_to_strip_is_pass_through Demo.host
           (Index.Config.mk None None (Some false) (Some []) None None)
           Demo.world0 eq_refl eq_refl).
Defined.

Section IndexFilter.
Context `{Host}.

(** The file filter of [src/src/index.ts]: with something to strip, a path is
    parsed exactly when the include expression matches it and the exclude
    expression does not. *)
Lemma Index_file_is_visited_iff (config : Index.Config.t) (w w' : World)
  (plugin : BunPlugin) (path : string) (w1 : World) :
  Index.nothingToStrip config = false ->
  Index.Strip config w = (Ok plugin, w') ->
  parsed (snd (runOnLoad (setup plugin) path w1))
  = parsed w1 ++
    (if Index.includeOf config path && negb (Index.excludeOf config path)
     then [(basename path, fileText path)] else []).
Proof.
  intros Hsome Hstrip.
  destruct (Index_Strip_spec config w) as (compilerOptions & w2 & _ & E & _).
  rewrite E in Hstrip. injection Hstrip as <- _.
  cbn [setup runOnLoad filter callback]. rewrite Hsome.
  destruct (Index.includeOf config path); simpl; [| now rewrite app_nil_r].
  unfold Index.loadCallback, bind, readText.
  destruct (Index.excludeOf config path); simpl.
  - rewrite debug_value. simpl.
    destruct (debug_onlyLogs "file is excluded:" [LogString path]
                {| verbose := verbose w1; console := console w1;
                   reads := reads w1 ++ [path]; parsed := parsed w1 |})
      as (_ & _ & Hp & _).
    rewrite Hp. simpl. now rewrite app_nil_r.
  - match goal with
    | |- context [Index.stripFunctions ?c ?p ?src ?w0] =>
        destruct (stripFunctions_spec Index.StripConfig.stripDebugger
                    Index.StripConfig.compilerOptions Index.shouldStrip c p src w0)
          as (w3 & E3 & _ & _ & Hp & _);
        unfold Index.stripFunctions; rewrite E3
    end.
    simpl. exact Hp.
Qed.

End IndexFilter.

(** C2 (evaluation).  Under the default configuration of
    [src/src/index.ts] the include expression, made from ["*"], does not
    match the path [src/x.ts], so the file is never handed to the callback:
    the hook answers [undefined] and nothing is read or parsed.  The exclude
    expression, made from ["*node_modules*"], does not match
    [src/node_modules/x.ts]: once an include pattern admits that path, the
    file is parsed and transformed.  Neither default matches a path that
    holds a slash. *)
Theorem C2_index_default_patterns_on_nested_paths :
  (exists plugin w,
      @Index.Strip Demo.host Index.emptyConfig Demo.world0 = (Ok plugin, w)
      /\ @Index.includeOf Demo.host Index.emptyConfig "src/x.ts" = false
      /\ runOnLoad (setup plugin) "src/x.ts" w = (Undefined, w)
      /\ @Index.excludeOf Demo.host Index.emptyConfig "src/node_modules/x.ts" = false
      /\ @Index.includeOf Demo.host Index.emptyConfig "x.ts" = true
      /\ @Index.excludeOf Demo.host Index.emptyConfig "node_modules" = true)
  /\ (let config := Index.Config.mk (Some (FString "**")) None None None None None in
      exists plugin w,
        @Index.Strip Demo.host config Demo.world0 = (Ok plugin, w)
        /\ @fileText Demo.host "src/node_modules/x.ts" = "console.log(1);"
        /\ runOnLoad (setup plugin) "src/node_modules/x.ts" w
           = (Contents "void 0;",
              {| verbose := false; console := [];
                 reads := ["src/node_modules/x.ts"];
                 parsed := [("x.ts", "console.log(1);")] |})).
Proof.
  split.
  - eexists. eexists. split; [reflexivity |].
    repeat split; vm_compute; reflexivity.
  - eexists. eexists. split; [reflexivity |].
    split; vm_compute; reflexivity.
Qed.

(** Under the default configuration of [src/unnamed/part_000] the path
    [src/x.ts] is included and transformed, and so is
    [src/node_modules/x.ts]: the exclude pattern ["**node_modules**"] does not
    match it. *)
Example Part000_default_patterns_on_nested_paths :
  exists plugin w,
    @Part000.Strip Demo.host Part000.emptyConfig Demo.world0 = (Ok plugin, w)
    /\ fst (runOnLoad (setup plugin) "src/x.ts" w)
       = Contents "if (x) { void 0; ; return x; }"
    /\ @minimatch Demo.host "src/node_modules/x.ts" "**node_modules**" = false
    /\ runOnLoad (setup plugin) "src/node_modules/x.ts" w
       = (Contents "void 0;",
          {| verbose := false; console := [];
             reads := ["src/node_modules/x.ts"];
             parsed := [("x.ts", "console.log(1);")] |}).
Proof.
  eexists. eexists. split; [reflexivity |].
  repeat split; vm_compute; reflexivity.
Qed.

(* ================================================================== *)
(** * Null [functions] in [src/unnamed/part_000] *)

(** A [StripConfig] whose [functions] is null strips no call. *)
Lemma Part000_null_functions_strip_no_call `{Host}
  (config : Part000.StripConfig.t) (fileName : string) (expr : Node) (args : list Node)
  (s : WalkState) :
  Part000.StripConfig.functions config = FNull ->
  Part000.shouldStrip config expr = false
  /\ fst (Part000.walk config fileName (CallExpression expr args) s)
     = CallExpression (Part000.rewrite config expr) (map (Part000.rewrite config) args).
Proof.
  intros Hnull.
  assert (Part000.shouldStrip config expr = false) as Hs.
  { unfold Part000.shouldStrip. now rewrite Hnull. }
  split; [exact Hs |].
  rewrite Part000_walk_rewrite. unfold Part000.rewrite. simpl.
  now rewrite Hs, andb_false_r.
Qed.

(** C5 (evaluation).  [Strip({ functions: null, debugger: false })] of
    [src/unnamed/part_000]: [config.functions ?? [...]] replaces the explicit
    null by the default patterns, and the call [console.log('hi')] of
    [src/x.ts] is stripped. *)
Theorem C5_part000_explicit_null_functions_gets_the_defaults :
  let config := Part000.Config.mk None None (Some false) (Some FNull) None None in
  exists plugin w,
    @Part000.Strip Demo.host config Demo.world0 = (Ok plugin, w)
    /\ @fileText Demo.host "src/x.ts" = "if (x) { console.log('hi'); debugger; return x; }"
    /\ fst (runOnLoad (setup plugin) "src/x.ts" w)
       = Contents "if (x) { void 0; debugger; return x; }".
Proof.
  eexists. eexists. split; [reflexivity |].
  split; vm_compute; reflexivity.
Qed.

(* ================================================================== *)
(** * Further properties of the matcher *)

Lemma Part000_shouldStrip_patterns `{Host}
  (config : Part000.StripConfig.t) (expr : Node) :
  Part000.shouldStrip config expr
  = match expr with
    | PropertyAccessExpression (Identifier baseName) (Identifier methodName) =>
        matchesAny (fullNameOf baseName methodName)
          (Part000.patternsOf (Part000.StripConfig.functions config))
    | _ => false
    end.
Proof.
  unfold Part000.shouldStrip, Part000.patternsOf.
  destruct (Part000.StripConfig.functions config) as [| s | l];
    destruct expr as [| | | | obj prop | | | | | | | | | | |]; try reflexivity;
    destruct obj; try reflexivity; destruct prop; try reflexivity;
    cbn [isIdentifier negb orb textOf Part000.spread]; apply loop_existsb.
Qed.

(** X1.  [shouldStrip] of [src/unnamed/part_000], in full: on a callee
    [base.method] of two identifiers it answers whether the dotted name
    matches one of the patterns, where a null [functions] has no pattern, an
    array has its elements, and a single string is spread into its
    characters, each a pattern of its own; on every other callee it answers
    false. *)
Theorem X1_part000_shouldStrip_characterised `{Host}
  (functions : FilterPattern) (stripDebugger : bool) (compilerOptions : CompilerOptions)
  (expr : Node) :
  Part000.shouldStrip (Part000.StripConfig.mk functions stripDebugger compilerOptions) expr
  = match expr with
    | PropertyAccessExpression (Identifier baseName) (Identifier methodName) =>
        matchesAny (fullNameOf baseName methodName)
          match functions with
          | FNull => []
          | FString s => Part000.characters s
          | FArray l => l
          end
    | _ => false
    end.
Proof. apply Part000_shouldStrip_patterns. Qed.

(** A single string given for [functions] is read character by character:
    ["console.*"] holds the pattern ["*"], which matches every dotted name
    that does not begin with a dot, so [other.call] is stripped too. *)
Example part000_string_functions_is_spread :
  @Part000.shouldStrip Demo.host
     (Part000.StripConfig.mk (FString "console.*") true getDefaultCompilerOptions)
     (PropertyAccessExpression (Identifier "other") (Identifier "call")) = true.
Proof. reflexivity. Qed.

(** X2.  The two variants compared on the same list of patterns: whatever
    [shouldStrip] of [src/src/index.ts] accepts, that of
    [src/unnamed/part_000] accepts as well, and on a list of at most one
    pattern the two agree. *)
Theorem X2_index_matcher_accepts_less `{Host}
  (patterns : list string) (stripDebugger : bool) (compilerOptions : CompilerOptions)
  (expr : Node) :
  let index := Index.shouldStrip (Index.StripConfig.mk patterns stripDebugger compilerOptions) in
  let part000 :=
    Part000.shouldStrip
      (Part000.StripConfig.mk (FArray patterns) stripDebugger compilerOptions) in
  (index expr = true -> part000 expr = true)
  /\ (List.length patterns <= 1 -> index expr = part000 expr).
Proof.
  intros index part000. unfold index, part000.
  rewrite Part000_shouldStrip_patterns.
  cbn [Part000.StripConfig.functions Part000.patternsOf].
  destruct expr as [| | | | obj prop | | | | | | | | | | |];
    try (split; [discriminate | reflexivity]).
  destruct obj; try (split; [discriminate | reflexivity]).
  destruct prop; try (split; [discriminate | reflexivity]).
  rewrite Index_shouldStrip_first. cbn [Index.StripConfig.functions].
  unfold matchesAny.
  destruct patterns as [| p rest]; simpl.
  - split; [discriminate | reflexivity].
  - split.
    + intros ->. reflexivity.
    + intros Hlen. destruct rest; [| simpl in Hlen; lia].
      simpl. now rewrite orb_false_r.
Qed.

(** [index.ts] accepts what [part_000] accepts when there is one pattern,
    and less when there are two. *)
Lemma X2_witness_one_and_two_patterns :
  let callee := PropertyAccessExpression (Identifier "console") (Identifier "log") in
  (@Index.shouldStrip Demo.host
     (Index.StripConfig.mk ["console.*"] true getDefaultCompilerOptions) callee = true
   /\ @Part000.shouldStrip Demo.host
        (Part000.StripConfig.mk (FArray ["console.*"]) true getDefaultCompilerOptions) callee
      = true)
  /\ @Index.shouldStrip Demo.host
       (Index.StripConfig.mk ["console.*"] true getDefaultCompilerOptions) callee
     = @Part000.shouldStrip Demo.host
         (Part000.StripConfig.mk (FArray ["console.*"]) true getDefaultCompilerOptions) callee.
Proof.
  pose proof (@X2_index_matcher_accepts_less Demo.host ["console.*"] true
                getDefaultCompilerOptions
                (PropertyAccessExpression (Identifier "console") (Identifier "log")))
    as [Himp Heq].
  split.
  - split; [reflexivity | exact (Himp eq_refl)].
  - exact (Heq (le_n 1)).
Defined.

(* ================================================================== *)
(** * The load hook *)

(** X3.  The load hook of [src/src/index.ts] when there is something to
    strip.  A path the include expression rejects is passed on untouched.
    Every other path is read, exactly once and before the exclude expression
    is consulted; an excluded path gets its own text back and is not parsed,
    and any other gets the print of the rewritten parse tree of its text,
    parsed once under the base name of the path. *)
Theorem X3_index_load_hook `{Host}
  (config : Index.Config.t) (w w' : World) (plugin : BunPlugin)
  (path : string) (w1 : World) :
  Index.nothingToStrip config = false ->
  Index.Strip config w = (Ok plugin, w') ->
  exists compilerOptions,
    Index.getCompilerOptions
      (nullish (Index.Config.tsconfigPath config) (resolveFromCwd "./tsconfig.json"))
    = Ok compilerOptions
    /\ let stripConfig :=
         Index.StripConfig.mk
           (nullish (Index.Config.functions config) ["console.*"; "assert.*"])
           (nullish (Index.Config.debugger config) true) compilerOptions in
       let sourceFile :=
         createSourceFile (basename path) (fileText path)
           (targetOrES2015 compilerOptions) in
       let included := Index.includeOf config path in
       let excluded := Index.excludeOf config path in
       fst (runOnLoad (setup plugin) path w1)
       = (if included then
            Contents (if excluded then fileText path
                      else printNode (Index.rewrite stripConfig sourceFile) sourceFile)
          else Undefined)
       /\ reads (snd (runOnLoad (setup plugin) path w1))
          = reads w1 ++ (if included then [path] else [])
       /\ parsed (snd (runOnLoad (setup plugin) path w1))
          = parsed w1 ++
            (if included && negb excluded then [(basename path, fileText path)] else []).
Proof.
  intros Hsome Hstrip.
  destruct (Index_Strip_spec config w) as (compilerOptions & w2 & Hco & E & _).
  exists compilerOptions. split; [exact Hco |].
  rewrite E in Hstrip. injection Hstrip as <- _.
  cbn [setup runOnLoad filter callback]. rewrite Hsome.
  cbv zeta.
  destruct (Index.includeOf config path); simpl;
    [| repeat split; now rewrite app_nil_r].
  unfold Index.loadCallback, bind, readText.
  destruct (Index.excludeOf config path); simpl.
  - rewrite debug_value. simpl.
    destruct (debug_onlyLogs "file is excluded:" [LogString path]
                {| verbose := verbose w1; console := console w1;
                   reads := reads w1 ++ [path]; parsed := parsed w1 |})
      as (_ & Hr & Hp & _).
    rewrite Hr, Hp. simpl. repeat split. now rewrite app_nil_r.
  - match goal with
    | |- context [Index.stripFunctions ?c ?p ?src ?w0] =>
        destruct (stripFunctions_spec Index.StripConfig.stripDebugger
                    Index.StripConfig.compilerOptions Index.shouldStrip c p src w0)
          as (w3 & E3 & _ & Hr & Hp & _);
        unfold Index.stripFunctions; rewrite E3
    end.
    simpl in *. repeat split; assumption.
Qed.

(** [Strip({ include: "**" })] on [src/x.ts]. *)
Lemma X3_witness_included_path :
  let config := Index.Config.mk (Some (FString "**")) None None None None None in
  Index.nothingToStrip config = false
  /\ exists plugin w',
       @Index.Strip Demo.host config Demo.world0 = (Ok plugin, w')
       /\ fst (runOnLoad (setup plugin) "src/x.ts" w')
          = Contents "if (x) { void 0; ; return x; }"
       /\ reads (snd (runOnLoad (setup plugin) "src/x.ts" w')) = ["src/x.ts"]
       /\ parsed (snd (runOnLoad (setup plugin) "src/x.ts" w'))
          = [("x.ts", "if (x) { console.log('hi'); debugger; return x; }")].
Proof.
  split; [reflexivity |].
  eexists. eexists. split; [reflexivity |].
  destruct (@X3_index_load_hook Demo.host
              (Index.Config.mk (Some (FString "**")) None None None None None)
              Demo.world0 _ _ "src/x.ts" Demo.world0 eq_refl eq_refl)
    as (compilerOptions & Hco & Hresult & Hreads & Hparsed).
  vm_compute in Hco. injection Hco as <-.
  split; [exact Hresult |]. split; [exact Hreads | exact Hparsed].
Defined.

Section Part000Plugin.
Context `{Host}.

Lemma Part000_getCompilerOptions_ok (sourcePath : string) :
  exists options, Part000.getCompilerOptions sourcePath = Ok options.
Proof.
  unfold Part000.getCompilerOptions, tryCatch.
  match goal with
  | |- context [match ?body with Ok _ => _ | Throw _ => _ end] => destruct body
  end; eauto.
Qed.

(** Behind [??] with an array for default, the spread and [.length] cannot
    throw. *)
Lemma spread_nullishPattern (a : option FilterPattern) (def : list string) :
  Part000.spread (nullishPattern a (FArray def))
  = Ok (Part000.patternsOf (nullishPattern a (FArray def))).
Proof. destruct a as [[| s | l] |]; reflexivity. Qed.

Lemma lengthOf_nullishPattern (a : option FilterPattern) (def : list string) :
  exists len, Part000.lengthOf (nullishPattern a (FArray def)) = Ok len.
Proof. destruct a as [[| s | l] |]; simpl; eauto. Qed.

Lemma Part000_Strip_spec (config : Part000.Config.t) (w : World) :
  exists compilerOptions w',
    Part000.getCompilerOptions
      (nullish (Part000.Config.tsconfigPath config) (resolveFromCwd "./tsconfig.json"))
    = Ok compilerOptions
    /\ Part000.Strip config w
       = (Ok {| name := "strip-debug";
                setup :=
                  [ {| filter := Part000.includeFilter (Part000.includeOf config);
                       callback :=
                         if Part000.nothingToStrip config then fun _ => ret Undefined
                         else Part000.loadCallback (Part000.excludeOf config)
                                (Part000.StripConfig.mk
                                   (Part000.functionsOf config)
                                   (nullish (Part000.Config.debugger config) true)
                                   compilerOptions) |} ] |}, w')
    /\ verbose w' = nullish (Part000.Config.verbose config) (verbose w)
    /\ reads w' = reads w /\ parsed w' = parsed w.
Proof.
  destruct (Part000_getCompilerOptions_ok
              (nullish (Part000.Config.tsconfigPath config)
                 (resolveFromCwd "./tsconfig.json")))
    as (compilerOptions & Hco).
  exists compilerOptions.
  unfold Part000.Strip. rewrite !spread_nullishPattern, Hco.
  fold (Part000.includeOf config) (Part000.excludeOf config) (Part000.functionsOf config).
  unfold Part000.nothingToStrip.
  destruct (lengthOf_nullishPattern (Part000.Config.functions config)
              ["console.*"; "assert.*"]) as (len & Hlen).
  fold (Part000.functionsOf config) in Hlen. rewrite Hlen.
  destruct (Nat.eqb len 0 && negb _);
    unfold bind, getVerbose, setVerbose, debug, ret; simpl;
    destruct (nullish (Part000.Config.verbose config) (verbose w));
    eexists; repeat split; reflexivity.
Qed.

End Part000Plugin.

(** X4.  The load hook of [src/unnamed/part_000] when there is something to
    strip.  A path that the include expression rejects is passed on
    untouched.  Every other path is read, exactly once and before the exclude
    patterns are tried; a path that minimatch matches against some exclude
    pattern gets its own text back and is not parsed, and any other gets the
    print of the rewritten parse tree of its text, parsed once under the base
    name of the path. *)
Theorem X4_part000_load_hook `{Host}
  (config : Part000.Config.t) (w w' : World) (plugin : BunPlugin)
  (path : string) (w1 : World) :
  Part000.nothingToStrip config = false ->
  Part000.Strip config w = (Ok plugin, w') ->
  exists compilerOptions,
    Part000.getCompilerOptions
      (nullish (Part000.Config.tsconfigPath config) (resolveFromCwd "./tsconfig.json"))
    = Ok compilerOptions
    /\ let stripConfig :=
         Part000.StripConfig.mk (Part000.functionsOf config)
           (nullish (Part000.Config.debugger config) true) compilerOptions in
       let sourceFile :=
         createSourceFile (basename path) (fileText path)
           (targetOrES2015 compilerOptions) in
       let included := Part000.includeFilter (Part000.includeOf config) path in
       let excluded := matchesAny path (Part000.excludeOf config) in
       fst (runOnLoad (setup plugin) path w1)
       = (if included then
            Contents (if excluded then fileText path
                      else printNode (Part000.rewrite stripConfig sourceFile) sourceFile)
          else Undefined)
       /\ reads (snd (runOnLoad (setup plugin) path w1))
          = reads w1 ++ (if included then [path] else [])
       /\ parsed (snd (runOnLoad (setup plugin) path w1))
          = parsed w1 ++
            (if included && negb excluded then [(basename path, fileText path)] else []).
Proof.
  intros Hsome Hstrip.
  destruct (Part000_Strip_spec config w) as (compilerOptions & w2 & Hco & E & _).
  exists compilerOptions. split; [exact Hco |].
  rewrite E in Hstrip. injection Hstrip as <- _.
  cbn [setup runOnLoad filter callback]. rewrite Hsome.
  cbv zeta.
  destruct (Part000.includeFilter (Part000.includeOf config) path); simpl;
    [| repeat split; now rewrite app_nil_r].
  unfold Part000.loadCallback, bind, readText, matchesAny.
  destruct (existsb (fun pattern => minimatch path pattern) (Part000.excludeOf config));
    simpl.
  - repeat split. now rewrite app_nil_r.
  - match goal with
    | |- context [Part000.stripFunctions ?c ?p ?src ?w0] =>
        destruct (stripFunctions_spec Part000.StripConfig.stripDebugger
                    Part000.StripConfig.compilerOptions Part000.shouldStrip c p src w0)
          as (w3 & E3 & _ & Hr & Hp & _);
        unfold Part000.stripFunctions; rewrite E3
    end.
    simpl in *. repeat split; assumption.
Qed.

(** [Strip()] on [src/x.ts] and on [src/node_modules/x.ts]. *)
Lemma X4_witness_default_configuration :
  Part000.nothingToStrip Part000.emptyConfig = false
  /\ exists plugin w',
       @Part000.Strip Demo.host Part000.emptyConfig Demo.world0 = (Ok plugin, w')
       /\ fst (runOnLoad (setup plugin) "src/x.ts" w')
          = Contents "if (x) { void 0; ; return x; }"
       /\ reads (snd (runOnLoad (setup plugin) "src/x.ts" w')) = ["src/x.ts"]
       /\ parsed (snd (runOnLoad (setup plugin) "src/x.ts" w'))
          = [("x.ts", "if (x) { console.log('hi'); debugger; return x; }")].
Proof.
  split; [reflexivity |].
  eexists. eexists. split; [reflexivity |].
  destruct (@X4_part000_load_hook Demo.host Part000.emptyConfig
              Demo.world0 _ _ "src/x.ts" Demo.world0 eq_refl eq_refl)
    as (compilerOptions & Hco & Hresult & Hreads & Hparsed).
  vm_compute in Hco. injection Hco as <-.
  split; [exact Hresult |]. split; [exact Hreads | exact Hparsed].
Defined.

(* ================================================================== *)
(** * Empty and null pattern lists in [src/src/index.ts] *)

(** X5.  An empty array makes [makeRegex] join nothing, and the expression of
    the empty source matches every string.  So [include: []] admits every
    path, and [exclude: []] excludes every path: whatever else is configured,
    the hook then parses nothing and answers either [undefined] or the
    file's own text. *)
Theorem X5_index_empty_array_matches_every_path `{Host}
  (config : Index.Config.t) (w w' : World) (plugin : BunPlugin)
  (path : string) (w1 : World) :
  (Index.Config.include config = Some (FArray []) -> Index.includeOf config path = true)
  /\ (Index.Config.exclude config = Some (FArray []) ->
      Index.Strip config w = (Ok plugin, w') ->
      Index.excludeOf config path = true
      /\ parsed (snd (runOnLoad (setup plugin) path w1)) = parsed w1
      /\ (fst (runOnLoad (setup plugin) path w1) = Undefined
          \/ fst (runOnLoad (setup plugin) path w1) = Contents (fileText path))).
Proof.
  split.
  - intros Hinclude. unfold Index.includeOf. now rewrite Hinclude.
  - intros Hexclude Hstrip.
    assert (Index.excludeOf config path = true) as Hall.
    { unfold Index.excludeOf. now rewrite Hexclude. }
    split; [exact Hall |].
    destruct (Index_Strip_spec config w) as (compilerOptions & w2 & _ & E & _).
    rewrite E in Hstrip. injection Hstrip as <- _.
    cbn [setup runOnLoad filter callback].
    destruct (Index.includeOf config path); [| simpl; auto].
    destruct (Index.nothingToStrip config); [simpl; auto |].
    unfold Index.loadCallback, bind, readText. rewrite Hall.
    rewrite debug_value. simpl.
    destruct (debug_onlyLogs "file is excluded:" [LogString path]
                {| verbose := verbose w1; console := console w1;
                   reads := reads w1 ++ [path]; parsed := parsed w1 |})
      as (_ & _ & Hp & _).
    rewrite Hp. simpl. auto.
Qed.

(** [Strip({ include: "**", exclude: [] })] on [src/x.ts]: the file comes
    back as it is. *)
Lemma X5_witness_empty_exclude :
  let config := Index.Config.mk (Some (FArray [])) (Some (FArray [])) None None None None in
  @Index.includeOf Demo.host config "src/x.ts" = true
  /\ exists plugin w',
       @Index.Strip Demo.host config Demo.world0 = (Ok plugin, w')
       /\ @Index.excludeOf Demo.host config "src/x.ts" = true
       /\ parsed (snd (runOnLoad (setup plugin) "src/x.ts" Demo.world0)) = []
       /\ fst (runOnLoad (setup plugin) "src/x.ts" Demo.world0)
          = Contents "if (x) { console.log('hi'); debugger; return x; }".
Proof.
  pose proof (@X5_index_empty_array_matches_every_path Demo.host
                (Index.Config.mk (Some (FArray [])) (Some (FArray [])) None None None None)
                Demo.world0) as Hx.
  split.
  - exact (proj1 (Hx Demo.world0 {| name := ""; setup := [] |} "src/x.ts" Demo.world0)
             eq_refl).
  - eexists. eexists. split; [reflexivity |].
    destruct (proj2 (Hx _ _ "src/x.ts" Demo.world0) eq_refl eq_refl)
      as (Hall & Hparsed & _).
    split; [exact Hall |]. split; [exact Hparsed |]. reflexivity.
Defined.

(** For [include] and [exclude], an explicit null is the same as leaving
    the option out. *)
Lemma Index_null_pattern_is_the_default `{Host}
  (debugger : option bool) (functions : option (list string))
  (tsconfigPath : option string) (verbose : option bool) (w : World) :
  Index.Strip (Index.Config.mk (Some FNull) (Some FNull) debugger functions
                 tsconfigPath verbose) w
  = Index.Strip (Index.Config.mk None None debugger functions tsconfigPath verbose) w.
Proof. reflexivity. Qed.

(* ================================================================== *)
(** * What [Strip] does to the world *)

(** X6.  The module variable [verbose] and the console, across a call of
    [Strip] in [src/src/index.ts] that returns a plugin.  The call sets
    [verbose] to [config.verbose] when that is given and leaves it as it
    found it otherwise, so the flag of an earlier call lives on.  With the
    resulting flag unset it writes nothing to the console; with the flag set
    it adds three lines, and a fourth when there is nothing to strip. *)
Theorem X6_index_Strip_sets_verbose_and_logs `{Host}
  (config : Index.Config.t) (w w' : World) (plugin : BunPlugin) :
  Index.Strip config w = (Ok plugin, w') ->
  verbose w' = nullish (Index.Config.verbose config) (verbose w)
  /\ exists lines,
       console w' = console w ++ lines
       /\ List.length lines
          = if verbose w' then (if Index.nothingToStrip config then 4 else 3) else 0.
Proof.
  unfold Index.Strip, Index.makeFileFilter.
  destruct (Index.getCompilerOptions _) as [compilerOptions | err]; [| discriminate].
  unfold Index.nothingToStrip.
  destruct (Nat.eqb _ 0 && negb _);
    unfold bind, getVerbose, setVerbose, debug, ret; simpl;
    destruct (nullish (Index.Config.verbose config) (verbose w)); simpl;
    intros Hstrip; injection Hstrip as _ <-; simpl;
    (split; [reflexivity |]); eexists;
    (split; [rewrite <- ?app_assoc; simpl; try reflexivity;
             symmetry; apply app_nil_r
            | reflexivity]).
Qed.

(** [Strip({ verbose: true })] from a quiet world. *)
Lemma X6_witness_verbose_is_set :
  match @Index.Strip Demo.host (Index.Config.mk None None None None None (Some true))
          Demo.world0 with
  | (Ok _, w1) => verbose w1 = true /\ List.length (console w1) = 3
  | (Throw _, _) => False
  end.
Proof.
  destruct (@Index.Strip Demo.host (Index.Config.mk None None None None None (Some true))
              Demo.world0) as [[plugin | err] w1] eqn:E.
  - destruct (@X6_index_Strip_sets_verbose_and_logs Demo.host _ _ _ _ E)
      as (Hv & lines & Hc & Hn).
    simpl in Hv. split; [exact Hv |].
    rewrite Hc. simpl. rewrite Hn, Hv. reflexivity.
  - vm_compute in E. discriminate E.
Defined.

(** Two calls in a row: the second, given no [verbose], logs because the
    first set the flag. *)
Example verbose_lives_on_between_calls :
  match @Index.Strip Demo.host
          (Index.Config.mk None None None None None (Some true)) Demo.world0 with
  | (Ok _, w1) =>
      match @Index.Strip Demo.host Index.emptyConfig w1 with
      | (Ok _, w2) => (verbose w2, List.length (console w2))
      | _ => (false, 0)
      end
  | _ => (false, 0)
  end = (true, 6).
Proof. reflexivity. Qed.

(* ================================================================== *)
(** * The compiler options *)

Section RewriteExt.
Context {StripConfig : Type}.
Variable stripDebugger : StripConfig -> bool.
Variable shouldStrip : StripConfig -> Node -> bool.

Lemma map_ext_all (f g : Node -> Node) (l : list Node) :
  Forall (fun n => f n = g n) l -> map f l = map g l.
Proof.
  induction 1 as [| n rest Hn _ IH]; simpl; [reflexivity | now rewrite Hn, IH].
Qed.

(** [rewrite] looks at the configuration through [stripDebugger] and
    [shouldStrip] only. *)
Lemma rewrite_ext (c1 c2 : StripConfig) (tree : Node) :
  (forall expr, shouldStrip c1 expr = shouldStrip c2 expr) ->
  stripDebugger c1 = stripDebugger c2 ->
  rewrite stripDebugger shouldStrip c1 tree = rewrite stripDebugger shouldStrip c2 tree.
Proof.
  intros Hs Hd.
  induction tree using Node_induction; simpl; try reflexivity.
  - now rewrite IHtree1, IHtree2.
  - now rewrite IHtree1, IHtree2.
  - now rewrite Hs, IHtree, (map_ext_all _ _ _ H).
  - now rewrite IHtree.
  - now rewrite Hd.
  - now rewrite IHtree.
  - destruct e; simpl in *; [now rewrite H | reflexivity].
  - rewrite IHtree1, IHtree2. destruct e; simpl in *; [now rewrite H | reflexivity].
  - now rewrite (map_ext_all _ _ _ H).
  - now rewrite (map_ext_all _ _ _ H).
  - now rewrite (map_ext_all _ _ _ H).
Qed.

End RewriteExt.

(** X7.  The compiler options reach the result of [stripFunctions] through
    the parse target alone ([ts.transform] is handed them too, and the
    transformer of the plugin never asks for them), and the target is taken
    by [||]: two option
    records whose [target || ES2015] agree give the same text.  So a project
    that asks for ES3, whose number is 0, is parsed as a project that asks
    for nothing, with ES2015. *)
Theorem X7_options_matter_through_the_target_only `{Host}
  (functions : list string) (stripDebugger : bool) (options1 options2 : CompilerOptions)
  (path source : string) (w1 w2 : World) :
  targetOrES2015 options1 = targetOrES2015 options2 ->
  fst (Index.stripFunctions (Index.StripConfig.mk functions stripDebugger options1)
         path source w1)
  = fst (Index.stripFunctions (Index.StripConfig.mk functions stripDebugger options2)
           path source w2).
Proof.
  intros Htarget. unfold Index.stripFunctions.
  destruct (stripFunctions_spec Index.StripConfig.stripDebugger
              Index.StripConfig.compilerOptions Index.shouldStrip
              (Index.StripConfig.mk functions stripDebugger options1) path source w1)
    as (w1' & E1 & _).
  destruct (stripFunctions_spec Index.StripConfig.stripDebugger
              Index.StripConfig.compilerOptions Index.shouldStrip
              (Index.StripConfig.mk functions stripDebugger options2) path source w2)
    as (w2' & E2 & _).
  rewrite E1, E2. cbn [fst Index.StripConfig.compilerOptions].
  rewrite Htarget.
  f_equal. apply rewrite_ext; reflexivity.
Qed.

(** A target of ES3 and no target at all. *)
Lemma X7_witness_ES3_is_read_as_absent :
  let asksES3 := {| target := Some ES3; jsx := None |} in
  let asksNothing := {| target := None; jsx := Some JsxPreserve |} in
  targetOrES2015 asksES3 = ES2015
  /\ targetOrES2015 asksNothing = ES2015
  /\ fst (@Index.stripFunctions Demo.host
            (Index.StripConfig.mk ["console.*"] true asksES3)
            "src/x.ts" "console.log(1);" Demo.world0)
     = fst (@Index.stripFunctions Demo.host
              (Index.StripConfig.mk ["console.*"] true asksNothing)
              "src/x.ts" "console.log(1);" Demo.world0).
Proof.
  split; [reflexivity |]. split; [reflexivity |].
  exact (@X7_options_matter_through_the_target_only Demo.host ["console.*"] true
           {| target := Some ES3; jsx := None |}
           {| target := None; jsx := Some JsxPreserve |}
           "src/x.ts" "console.log(1);" Demo.world0 Demo.world0 eq_refl).
Defined.

(* ================================================================== *)
(** * The line "stripping file" *)

Lemma countLines_app (p : list LogArg -> bool) (a b : list (list LogArg)) :
  countLines p (a ++ b) = countLines p a + countLines p b.
Proof. unfold countLines. now rewrite List.filter_app, List.length_app. Qed.

Lemma stretch_refl (s : bool * World) : stretch false s s.
Proof.
  exists []. repeat split.
  - now rewrite app_nil_r.
  - now rewrite orb_false_r.
  - now rewrite andb_false_r.
Qed.

Lemma stretch_trans (a b : bool) (s1 s2 s3 : bool * World) :
  stretch a s1 s2 -> stretch b s2 s3 -> stretch (a || b) s1 s3.
Proof.
  intros (l1 & C1 & V1 & F1 & N1) (l2 & C2 & V2 & F2 & N2).
  exists (l1 ++ l2). repeat split.
  - now rewrite C2, C1, app_assoc.
  - congruence.
  - now rewrite F2, F1, orb_assoc.
  - rewrite countLines_app, N1, N2, V1, F1.
    destruct (verbose (snd s1)), (fst s1), a, b; reflexivity.
Qed.

Lemma anyNode_existsb (p : Node -> bool) (l : list Node) :
  negb (forallb (allNodes (fun n => negb (p n))) l) = existsb (anyNode p) l.
Proof.
  unfold anyNode.
  induction l as [| n rest IH]; simpl; [reflexivity |].
  now rewrite negb_andb, IH.
Qed.

Lemma stretch_bind {A B} (m : State (bool * World) A) (k : A -> State (bool * World) B)
  (a b : bool) (s : bool * World) :
  stretch a s (snd (m s)) ->
  (forall x s1, stretch b s1 (snd (k x s1))) ->
  stretch (a || b) s (snd (bind m k s)).
Proof.
  intros Hm Hk. unfold bind. destruct (m s) as [x s1].
  eapply stretch_trans; [exact Hm | apply Hk].
Qed.

Lemma stretch_map {A B} (m : State (bool * World) A) (f : A -> B)
  (a : bool) (s : bool * World) :
  stretch a s (snd (m s)) ->
  stretch a s (snd (bind m (fun x => ret (f x)) s)).
Proof. intros Hm. unfold bind. now destruct (m s) as [x s1]. Qed.

Lemma visitNodes_stretch (p : Node -> bool) (visitor : Node -> State (bool * World) Node)
  (nodes : list Node) :
  Forall (fun n => forall s, stretch (anyNode p n) s (snd (visitor n s))) nodes ->
  forall s, stretch (existsb (anyNode p) nodes) s (snd (visitNodes visitor nodes s)).
Proof.
  induction 1 as [| n rest Hn _ IH]; intros s.
  - apply stretch_refl.
  - rewrite visitNodes_cons. cbn [existsb].
    apply stretch_bind; [apply Hn |].
    intros n' s1. apply stretch_map, IH.
Qed.

Lemma visitOptional_stretch (p : Node -> bool) (visitor : Node -> State (bool * World) Node)
  (o : option Node) :
  optionHolds (fun n => forall s, stretch (anyNode p n) s (snd (visitor n s))) o ->
  forall s,
    stretch (match o with Some n => anyNode p n | None => false end) s
            (snd (visitOptional visitor o s)).
Proof.
  destruct o as [n |]; unfold visitOptional; simpl; intros Hn s.
  - apply stretch_map, Hn.
  - apply stretch_refl.
Qed.

Section StrippingFileLine.
Context `{Host}.
Context {StripConfig : Type}.
Variable stripDebugger : StripConfig -> bool.
Variable shouldStrip : StripConfig -> Node -> bool.

Let stripped := strippedCall shouldStrip.

Lemma anyNode_option (p : Node -> bool) (o : option Node) :
  negb match o with Some n => allNodes (fun x => negb (p x)) n | None => true end
  = match o with Some n => anyNode p n | None => false end.
Proof. now destruct o. Qed.

Lemma walk_stretch (config : StripConfig) (fileName : string) (node : Node) (s : WalkState) :
  stretch (anyNode (stripped config) node) s
          (snd (walk stripDebugger shouldStrip config fileName node s)).
Proof.
  revert s. unfold stripped.
  induction node using Node_induction; intros s0; unfold anyNode;
    cbn [allNodes strippedCall negb andb];
    try (cbn [walk visitEachChild]; apply stretch_refl).
  - (* property access *)
    cbn [walk visitEachChild].
    rewrite negb_andb. fold (anyNode (strippedCall shouldStrip config) node1).
    fold (anyNode (strippedCall shouldStrip config) node2).
    apply stretch_bind; [apply IHnode1 |].
    intros e' s1. apply stretch_map, IHnode2.
  - (* element access *)
    cbn [walk visitEachChild].
    rewrite negb_andb. fold (anyNode (strippedCall shouldStrip config) node1).
    fold (anyNode (strippedCall shouldStrip config) node2).
    apply stretch_bind; [apply IHnode1 |].
    intros e' s1. apply stretch_map, IHnode2.
  - (* call *)
    cbn [walk].
    destruct (isPropertyAccessExpression node && shouldStrip config node) eqn:Hstrip.
    + destruct s0 as [flag w0].
      simpl. unfold bind, ret, noteStripping, debug, stretch. simpl.
      destruct flag; simpl; [exists [] |];
        [| destruct (verbose w0) eqn:Hv; simpl; [eexists | exists []]];
        simpl; rewrite ?Hv; repeat split; simpl;
        rewrite ?app_nil_r, ?andb_false_r; reflexivity.
    + cbn [visitEachChild negb andb].
      rewrite negb_andb, anyNode_existsb.
      fold (anyNode (strippedCall shouldStrip config) node).
      apply stretch_bind; [apply IHnode |].
      intros e' s1. apply stretch_map, visitNodes_stretch. exact H0.
  - (* void *)
    cbn [walk visitEachChild]. apply stretch_map, IHnode.
  - (* debugger *)
    cbn [walk]. destruct (stripDebugger config).
    + destruct s0 as [flag w0].
      unfold bind, ret, inWorld, debug, stretch. simpl.
      destruct (verbose w0) eqn:Hv; simpl; [eexists | exists []];
        simpl; rewrite ?Hv; repeat split; simpl;
        rewrite ?app_nil_r, ?orb_false_r, ?andb_false_r; reflexivity.
    + cbn [visitEachChild]. apply stretch_refl.
  - (* expression statement *)
    cbn [walk visitEachChild]. apply stretch_map, IHnode.
  - (* return *)
    cbn [walk visitEachChild]. rewrite anyNode_option.
    apply stretch_map, visitOptional_stretch. exact H0.
  - (* if *)
    cbn [walk visitEachChild].
    rewrite !negb_andb, anyNode_option.
    fold (anyNode (strippedCall shouldStrip config) node1).
    fold (anyNode (strippedCall shouldStrip config) node2).
    rewrite <- orb_assoc.
    apply stretch_bind; [apply IHnode1 |].
    intros c' s1. apply stretch_bind; [apply IHnode2 |].
    intros t' s2. apply stretch_map, visitOptional_stretch. exact H0.
  - (* block *)
    cbn [walk visitEachChild]. rewrite anyNode_existsb.
    apply stretch_map, visitNodes_stretch. exact H0.
  - (* source file *)
    cbn [walk visitEachChild]. rewrite anyNode_existsb.
    apply stretch_map, visitNodes_stretch. exact H0.
  - (* other kinds *)
    cbn [walk visitEachChild]. rewrite anyNode_existsb.
    apply stretch_map, visitNodes_stretch. exact H0.
Qed.

End StrippingFileLine.

(** X8.  The line "stripping file" is written once for a file, however many
    calls are stripped in it: a run of the transformer adds exactly one such
    line to the console when [verbose] is set and the tree holds a call that
    [walk] replaces, and none otherwise. *)
Theorem X8_stripping_file_is_logged_once `{Host}
  (config : Index.StripConfig.t) (source : Node) (w : World) :
  exists lines,
    console (snd (Index.makeTransformer config source w)) = console w ++ lines
    /\ countLines isStrippingFileLine lines
       = (if verbose w && anyNode (strippedCall Index.shouldStrip config) source
          then 1 else 0).
Proof.
  unfold Index.makeTransformer, makeTransformer.
  pose proof (walk_stretch Index.StripConfig.stripDebugger Index.shouldStrip
                config (fileNameOf source) source (false, w)) as (lines & Hc & _ & _ & Hn).
  destruct (walk Index.StripConfig.stripDebugger Index.shouldStrip config
              (fileNameOf source) source (false, w)) as [node s'].
  simpl in *. exists lines. split; [exact Hc |].
  rewrite Hn. now rewrite andb_true_r.
Qed.

(** Two stripped calls and a debugger statement in one file: one line for
    the file, one for the debugger statement. *)
Example two_calls_one_line :
  let config :=
    Index.StripConfig.mk ["console.*"] true getDefaultCompilerOptions in
  let source :=
    SourceFile "x.ts"
      [ExpressionStatement (Demo.call "console" "log" [NumericLiteral "1"]);
       DebuggerStatement;
       ExpressionStatement (Demo.call "console" "warn" [NumericLiteral "2"])] in
  let lines :=
    console (snd (@Index.makeTransformer Demo.host config source
                    (withVerbose true Demo.world0))) in
  countLines isStrippingFileLine lines = 1
  /\ countLines isStrippingDebuggerLine lines = 1
  /\ List.length lines = 2.
Proof. repeat split; reflexivity. Qed.

(* ================================================================== *)
(** * What is left in the output *)

Section Output.
Context `{Host}.

Lemma Index_makeTransformer_rewrite (config : Index.StripConfig.t) (tree : Node) (w : World) :
  fst (Index.makeTransformer config tree w) = Index.rewrite config tree.
Proof.
  unfold Index.makeTransformer, Index.rewrite.
  destruct (makeTransformer_spec Index.StripConfig.stripDebugger Index.shouldStrip
              config tree w) as (w' & E & _).
  now rewrite E.
Qed.

Lemma Part000_makeTransformer_rewrite (config : Part000.StripConfig.t) (tree : Node)
  (w : World) :
  fst (Part000.makeTransformer config tree w) = Part000.rewrite config tree.
Proof.
  unfold Part000.makeTransformer, Part000.rewrite.
  destruct (makeTransformer_spec Part000.StripConfig.stripDebugger Part000.shouldStrip
              config tree w) as (w' & E & _).
  now rewrite E.
Qed.

(** With [stripDebugger] set, [rewrite] leaves no debugger statement. *)
Lemma rewrite_noDebugger {StripConfig : Type}
  (stripDebugger : StripConfig -> bool) (shouldStrip : StripConfig -> Node -> bool)
  (config : StripConfig) (tree : Node) :
  stripDebugger config = true ->
  noDebugger (rewrite stripDebugger shouldStrip config tree) = true.
Proof.
  intros Hd. unfold noDebugger.
  induction tree using Node_induction; simpl; try reflexivity.
  - now rewrite IHtree1, IHtree2.
  - now rewrite IHtree1, IHtree2.
  - destruct (isPropertyAccessExpression tree && shouldStrip config tree); [reflexivity |].
    simpl. now rewrite IHtree, (forallb_map_all _ _ _ H0).
  - now rewrite IHtree.
  - now rewrite Hd.
  - now rewrite IHtree.
  - destruct e; simpl in *; [now rewrite H0 | reflexivity].
  - rewrite IHtree1, IHtree2. destruct e; simpl in *; [now rewrite H0 | reflexivity].
  - now rewrite (forallb_map_all _ _ _ H0).
  - now rewrite (forallb_map_all _ _ _ H0).
  - now rewrite (forallb_map_all _ _ _ H0).
Qed.

Lemma allNodes_impl (p q : Node -> bool) (tree : Node) :
  (forall n, p n = true -> q n = true) ->
  allNodes p tree = true -> allNodes q tree = true.
Proof.
  intros Himp Hp. apply (allNodes_impl2 p p q); auto.
Qed.

End Output.

(** X9.  With debugger stripping on, the tree the transformer returns holds
    no debugger statement, wherever in the input the statements were. *)
Theorem X9_no_debugger_statement_is_left `{Host}
  (config : Index.StripConfig.t) (tree : Node) (w : World) :
  Index.StripConfig.stripDebugger config = true ->
  noDebugger (fst (Index.makeTransformer config tree w)) = true.
Proof.
  intros Hd. rewrite Index_makeTransformer_rewrite.
  unfold Index.rewrite. now apply rewrite_noDebugger.
Qed.

(** The example of the specification. *)
Lemma X9_witness_if_program :
  let config :=
    Index.StripConfig.mk ["console.*"; "assert.*"] true getDefaultCompilerOptions in
  noDebugger (SourceFile "x.ts" Demo.ifProgram) = false
  /\ noDebugger (fst (@Index.makeTransformer Demo.host config
                        (SourceFile "x.ts" Demo.ifProgram) Demo.world0)) = true.
Proof.
  split; [reflexivity |].
  exact (@X9_no_debugger_statement_is_left Demo.host
           (Index.StripConfig.mk ["console.*"; "assert.*"] true getDefaultCompilerOptions)
           (SourceFile "x.ts" Demo.ifProgram) Demo.world0 eq_refl).
Defined.

(** X10.  In [src/unnamed/part_000], the tree the transformer returns holds
    no call whose two-segment dotted callee matches one of the configured
    patterns: every such call of the input has been replaced, alone or with
    a call around it, and the rewrite makes no new one. *)
Theorem X10_part000_no_matching_call_is_left `{Host}
  (patterns : list string) (stripDebugger : bool) (compilerOptions : CompilerOptions)
  (tree : Node) (w : World) :
  noMatchingCall patterns
    (fst (Part000.makeTransformer
            (Part000.StripConfig.mk (FArray patterns) stripDebugger compilerOptions)
            tree w)) = true.
Proof.
  rewrite Part000_makeTransformer_rewrite. unfold Part000.rewrite, noMatchingCall.
  eapply allNodes_impl;
    [| apply rewrite_settled; apply Part000_shouldStrip_twoSegment].
  intros n Hn. apply negb_true_iff in Hn. apply negb_true_iff.
  destruct n as [| | | | | | expr args | | | | | | | | |]; try reflexivity.
  destruct expr as [| | | | obj prop | | | | | | | | | | |]; try reflexivity.
  destruct obj; try reflexivity. destruct prop; try reflexivity.
  cbn [replaced isPropertyAccessExpression andb] in Hn.
  rewrite Part000_shouldStrip_patterns in Hn. exact Hn.
Qed.


(** X12.  The transformer of [src/unnamed/part_000] is idempotent on trees:
    applied to its own output it returns that output, for an array, a string
    and null as [functions] alike. *)
Theorem X12_part000_transformer_is_idempotent `{Host}
  (config : Part000.StripConfig.t) (tree : Node) (w1 w2 : World) :
  fst (Part000.makeTransformer config
         (fst (Part000.makeTransformer config tree w1)) w2)
  = fst (Part000.makeTransformer config tree w1).
Proof.
  rewrite !Part000_makeTransformer_rewrite. unfold Part000.rewrite.
  apply rewrite_idempotent. apply Part000_shouldStrip_twoSegment.
Qed.

(* ================================================================== *)
(** * Nothing to strip in [src/unnamed/part_000] *)

(** X13.  In [src/unnamed/part_000] there is nothing to strip exactly when
    [debugger] is given as false and [functions] is given as the empty array
    or the empty string; a null [functions] does not count, since [??] has
    replaced it by the defaults before [.length] is taken.  The hook is then
    a pure pass-through: it answers [undefined] for every path and leaves
    the world as it was. *)
Theorem X13_part000_nothing_to_strip `{Host} (config : Part000.Config.t) (w : World) :
  (Part000.nothingToStrip config = true
   <-> Part000.Config.debugger config = Some false
       /\ (Part000.Config.functions config = Some (FArray [])
           \/ Part000.Config.functions config = Some (FString "")))
  /\ (Part000.nothingToStrip config = true ->
      exists plugin w',
        Part000.Strip config w = (Ok plugin, w')
        /\ forall path w1, runOnLoad (setup plugin) path w1 = (Undefined, w1)).
Proof.
  split.
  - unfold Part000.nothingToStrip, Part000.functionsOf.
    destruct config as [include exclude debugger functions tsconfigPath verbose].
    cbn [Part000.Config.functions Part000.Config.debugger].
    destruct debugger as [[|] |], functions as [[| [| c s] | [| p l]] |]; simpl;
      split; try discriminate; try (intros _; auto; fail);
      intros [Hd Hf]; try discriminate Hd;
      destruct Hf as [Hf | Hf]; discriminate Hf.
  - intros Hnothing.
    destruct (Part000_Strip_spec config w) as (compilerOptions & w' & _ & E & _).
    eexists. exists w'. split; [exact E |].
    intros path w1. cbn [setup runOnLoad filter callback]. rewrite Hnothing. simpl.
    now destruct (Part000.includeFilter (Part000.includeOf config) path).
Qed.

(** [Strip({ functions: "", debugger: false })] passes every file through;
    [Strip({ functions: null, debugger: false })] does not. *)
Lemma X13_witness_empty_string :
  let config := Part000.Config.mk None None (Some false) (Some (FString "")) None None in
  Part000.nothingToStrip config = true
  /\ Part000.nothingToStrip
       (Part000.Config.mk None None (Some false) (Some FNull) None None) = false
  /\ exists plugin w',
       @Part000.Strip Demo.host config Demo.world0 = (Ok plugin, w')
       /\ forall path w1, runOnLoad (setup plugin) path w1 = (Undefined, w1).
Proof.
  pose proof (@X13_part000_nothing_to_strip Demo.host
                (Part000.Config.mk None None (Some false) (Some (FString "")) None None)
                Demo.world0) as [Hiff Hhook].
  split; [exact (proj2 Hiff (conj eq_refl (or_intror eq_refl))) |].
  split; [reflexivity |].
  exact (Hhook eq_refl).
Defined.
